(** * MedDocExtractor: the resilient caller and the extraction orchestrator

    A shallow embedding of the two versions of the page component:

    - the multimodal version (one Gemini call behind [fetchWithRetry]),
    - the two-stage version (a Vision OCR call, then a Gemini call, both
      through the bare [fetch]).

    The browser is an environment the program talks to: the network, the
    random source and the file reader are oracles of a [World]; every call
    the program makes to the platform is appended to the [trace] of a
    [State].  JavaScript exceptions are the [Throw] outcome of a small
    state-and-exception monad. *)

From Stdlib Require Import ZArith QArith Qround String Ascii List Bool Lia Lqa.
From Stdlib Require Import DecimalString DecimalZ DecimalPos Qabs Floats.
Import ListNotations.

Set Implicit Arguments.

(** ** JavaScript values *)

(** The values [JSON.parse] can produce, plus [undefined].  IEEE doubles are
    not modelled: [number] is whatever the engine uses for them. *)
#[local] Unset Elimination Schemes.
Inductive JsValue (number : Type) : Type :=
| VUndefined
| VNull
| VBool (b : bool)
| VNum (n : number)
| VStr (s : string)
| VArr (items : list (JsValue number))
| VObj (fields : list (string * JsValue number)).
#[local] Set Elimination Schemes.

Arguments VUndefined {number}.
Arguments VNull {number}.
Arguments VBool {number} b.
Arguments VStr {number} s.
Arguments VArr {number} items.
Arguments VObj {number} fields.

(** What a [catch] clause can receive. *)
Inductive Exn : Type :=
| Error (message : string) (status : option Z)
    (* new Error(message); status is the property the retry loop attaches *)
| SyntaxError
    (* JSON.parse or response.json() on text that is not JSON *)
| TypeError (prop : string)
    (* reading property prop of null or undefined *)
| NetworkError (reason : string)
    (* the rejection of fetch: a TypeError without a status property *)
| ProgressEvent.
    (* the argument of FileReader.onerror: not an Error, it has no message *)

(** The part of the JavaScript engine the program relies on. *)
Class Engine : Type := {
  number : Type;
  (* ToBoolean on a number: false exactly for +0 and -0 (JSON has no NaN) *)
  number_truthy : number -> bool;
  (* Number.prototype.toString *)
  Number_toString : number -> string;
  (* JSON.parse on a string; None stands for the SyntaxError it throws *)
  JSON_parse : string -> option (JsValue number);
  (* the message text of an exception the engine itself raised *)
  engine_message : Exn -> string
}.

(** How a computation ends: with a value, or with an exception thrown. *)
Inductive Outcome (A : Type) : Type :=
| Return (a : A)
| Throw (e : Exn).

Arguments Throw {A} e.

(** ** The browser around the program *)

Record File : Type := {
  file_content : list Byte.byte;
  file_type : string
}.

Section Browser.

Context {E : Engine}.

Local Abbreviation Value := (JsValue number).

(** The init object handed to [fetch]; [body] keeps the value given to
    JSON.stringify. *)
Record Options : Type := {
  method : string;
  headers : list (string * string);
  body : Value
}.

(** A [Response]: its status and what [response.json()] resolves to
    ([None]: it rejects with a SyntaxError). *)
Record Response : Type := {
  status : Z;
  json : option Value
}.

Inductive FetchOutcome : Type :=
| Responded (r : Response)
| Rejected (reason : string).

(** The oracles of one run: the outcome of the k-th [fetch], the k-th value
    of [Math.random], and what [FileReader.readAsDataURL] loads for a file
    ([None]: the reader fires onerror). *)
Record World : Type := {
  net : nat -> FetchOutcome;
  rnd : nat -> Q;
  read_file : File -> option string
}.

Inductive ConsoleArg : Type :=
| ArgValue (v : Value)
| ArgExn (e : Exn).

Inductive ConsoleEntry : Type :=
| ConsoleLog (text : string)
| ConsoleError (label : string) (arg : ConsoleArg).

(** The React state of the page component. *)
Record UI : Type := {
  apiKey : string;
  file : option File;
  statusMessage : string;
  errorMessage : string;
  rawText : Value;
  structuredData : Value;
  isLoading : bool
}.

(** A call the program made to the platform. *)
Inductive Event : Type :=
| Fetched (url : string) (options : Options)   (* fetch(url, options) *)
| Drew                                         (* Math.random() *)
| Slept (delay : Q)                            (* setTimeout awaited, in ms *)
| Logged (entry : ConsoleEntry)                (* console.log, console.error *)
| Parsed (text : string)                       (* JSON.parse(text) *)
| Read (f : File).                             (* FileReader.readAsDataURL(f) *)

(** The component state and the calls made so far, oldest first. *)
Record State : Type := {
  ui : UI;
  trace : list Event
}.

Definition is_fetch (e : Event) : bool :=
  match e with Fetched _ _ => true | _ => false end.

Definition is_draw (e : Event) : bool :=
  match e with Drew => true | _ => false end.

(** How many times [fetch], resp. [Math.random], has been called. *)
Definition fetch_count (t : list Event) : nat := length (filter is_fetch t).

Definition draw_count (t : list Event) : nat := length (filter is_draw t).

(** The delays waited, in order. *)
Fixpoint delays (t : list Event) : list Q :=
  match t with
  | [] => []
  | Slept d :: rest => d :: delays rest
  | _ :: rest => delays rest
  end.

(** ** The monad *)

Definition M (A : Type) : Type := World -> State -> Outcome A * State.

Definition ret {A} (a : A) : M A := fun _ s => (Return a, s).

Definition throw {A} (e : Exn) : M A := fun _ s => (Throw e, s).

Definition bind {A B} (m : M A) (k : A -> M B) : M B :=
  fun w s =>
    match m w s with
    | (Return a, s') => k a w s'
    | (Throw e, s') => (Throw e, s')
    end.

(** try { m } catch (e) { handler e } *)
Definition try_catch {A} (m : M A) (handler : Exn -> M A) : M A :=
  fun w s =>
    match m w s with
    | (Return a, s') => (Return a, s')
    | (Throw e, s') => handler e w s'
    end.

(** try { m } finally { fin } *)
Definition try_finally {A} (m : M A) (fin : M unit) : M A :=
  fun w s =>
    match m w s with
    | (r, s') =>
        match fin w s' with
        | (Return _, s'') => (r, s'')
        | (Throw e, s'') => (Throw e, s'')
        end
    end.

Definition modify (f : State -> State) : M unit := fun _ s => (Return tt, f s).

Definition gets {A} (f : State -> A) : M A := fun _ s => (Return (f s), s).

Definition ask : M World := fun w s => (Return w, s).

(** Record a platform call. *)
Definition emit (e : Event) : M unit :=
  modify (fun s => {| ui := ui s; trace := trace s ++ [e] |}).

End Browser.

Declare Scope js_scope.
Delimit Scope js_scope with js.
Notation "x <- m ;; k" := (bind m (fun x => k))
  (at level 100, m at next level, right associativity) : js_scope.
Notation "m ;; k" := (bind m (fun _ => k))
  (at level 100, right associativity) : js_scope.

Local Open Scope string_scope.
Local Open Scope js_scope.

Section Language.

Context {E : Engine}.

Local Abbreviation Value := (JsValue number).

(** ** The language: truthiness, property reads, string conversion *)

(** ToBoolean. *)
Definition truthy (v : Value) : bool :=
  match v with
  | VUndefined | VNull => false
  | VBool b => b
  | VNum n => number_truthy n
  | VStr s => negb (s =? "")
  | VArr _ | VObj _ => true
  end.

Definition nullish (v : Value) : bool :=
  match v with
  | VUndefined | VNull => true
  | _ => false
  end.

(** The own property [k] of an object literal; the first binding of a key is
    the one an object built by JSON.parse holds (its keys are distinct). *)
Fixpoint lookup (k : string) (fields : list (string * Value)) : Value :=
  match fields with
  | [] => VUndefined
  | (k', v) :: rest => if k' =? k then v else lookup k rest
  end.

(** [v.k] on a value that is neither null nor undefined, for the property
    names the program reads (candidates, content, parts, text, error,
    message, transcribedText, structuredData, responses, textAnnotations,
    description): none of them is inherited from a prototype, so only an
    object can have one. *)
Definition own (v : Value) (k : string) : Value :=
  match v with
  | VObj fields => lookup k fields
  | _ => VUndefined
  end.

(** [v[0]] on a value that is neither null nor undefined: the first element
    of an array, the first code unit of a string, the property named 0 of an
    object. *)
Definition first (v : Value) : Value :=
  match v with
  | VArr (x :: _) => x
  | VStr (String c _) => VStr (String c EmptyString)
  | VObj fields => lookup "0" fields
  | _ => VUndefined
  end.

(** [v.k]: a TypeError on null and undefined. *)
Definition get (v : Value) (k : string) : M Value :=
  if nullish v then throw (TypeError k) else ret (own v k).

(** [v[0]]: a TypeError on null and undefined. *)
Definition get0 (v : Value) : M Value :=
  if nullish v then throw (TypeError "0") else ret (first v).

(** [v?.k] *)
Definition opt (v : Value) (k : string) : Value :=
  if nullish v then VUndefined else own v k.

(** [v?.[0]] *)
Definition opt0 (v : Value) : Value :=
  if nullish v then VUndefined else first v.

(** [a || b] *)
Definition or_else (a b : Value) : Value := if truthy a then a else b.

(** [v.length === 0] on a truthy value. *)
Definition length_is_zero (v : Value) : bool :=
  match v with
  | VArr items => match items with [] => true | _ => false end
  | VStr s => s =? ""
  | VObj fields =>
      match lookup "length" fields with
      | VNum n => negb (number_truthy n)
      | _ => false
      end
  | _ => false
  end.

(** ToString, as a template literal and JSON.parse apply it.  An object is
    taken to have no property named toString or valueOf of its own; with one
    (JSON can carry it) the conversion throws a TypeError instead, a case
    this function leaves out. *)
Fixpoint ToString (v : Value) : string :=
  match v with
  | VUndefined => "undefined"
  | VNull => "null"
  | VBool true => "true"
  | VBool false => "false"
  | VNum n => Number_toString n
  | VStr s => s
  | VArr items =>
      String.concat ","
        (map (fun x => match x with
                       | VUndefined | VNull => ""
                       | _ => ToString x
                       end) items)
  | VObj _ => "[object Object]"
  end.

(** An integer in a template literal. *)
Definition Z_toString (z : Z) : string := NilZero.string_of_int (Z.to_int z).

(** [s.split(",")[1]]: the text between the first comma and the next one,
    undefined when [s] has no comma. *)
Fixpoint until_comma (s : string) : string :=
  match s with
  | EmptyString => EmptyString
  | String c rest => if Ascii.eqb c "," then EmptyString else String c (until_comma rest)
  end.

Fixpoint after_comma (s : string) : option string :=
  match s with
  | EmptyString => None
  | String c rest => if Ascii.eqb c "," then Some rest else after_comma rest
  end.

Definition split_comma_1 (s : string) : Value :=
  match after_comma s with
  | Some rest => VStr (until_comma rest)
  | None => VUndefined
  end.

(** ** The platform *)

(** [response.ok]: the status is in the range 200-299. *)
Definition ok (r : Response) : bool := ((200 <=? status r) && (status r <=? 299))%Z.

(** [await fetch(url, options)]: the outcome is the world's for this call. *)
Definition fetch (url : string) (options : Options) : M Response :=
  w <- ask ;;
  k <- gets (fun s => fetch_count (trace s)) ;;
  emit (Fetched url options) ;;
  match net w k with
  | Responded r => ret r
  | Rejected reason => throw (NetworkError reason)
  end.

(** [await response.json()] *)
Definition response_json (r : Response) : M Value :=
  match json r with
  | Some v => ret v
  | None => throw SyntaxError
  end.

(** [Math.random()] *)
Definition Math_random : M Q :=
  w <- ask ;;
  k <- gets (fun s => draw_count (trace s)) ;;
  emit Drew ;;
  ret (rnd w k).

(** [await new Promise((resolve) => setTimeout(resolve, delay))] *)
Definition sleep (delay : Q) : M unit := emit (Slept delay).

(** [Math.round(x)]: the nearest integer, ties upwards. *)
Definition Math_round (x : Q) : Z := Qfloor (x + (1 # 2)).

Definition console_log (text : string) : M unit := emit (Logged (ConsoleLog text)).

Definition console_error (label : string) (arg : ConsoleArg) : M unit :=
  emit (Logged (ConsoleError label arg)).

(** [JSON.parse(v)]: the argument is converted to a string first. *)
Definition JSON_parse_value (v : Value) : M Value :=
  let text := ToString v in
  emit (Parsed text) ;;
  match JSON_parse text with
  | Some parsed => ret parsed
  | None => throw SyntaxError
  end.

(** [error.status] and [error.message] *)
Definition exn_status (e : Exn) : option Z :=
  match e with
  | Error _ st => st
  | _ => None
  end.

Definition exn_message (e : Exn) : option string :=
  match e with
  | Error message _ => Some message
  | ProgressEvent => None
  | _ => Some (engine_message e)
  end.

(** Truthiness of [error.status]. *)
Definition status_truthy (st : option Z) : bool :=
  match st with
  | Some z => negb (z =? 0)%Z
  | None => false
  end.

(** The text of [error.status] inside a template literal. *)
Definition status_text (st : option Z) : string :=
  match st with
  | Some z => Z_toString z
  | None => "undefined"
  end.

(** The React setters: each replaces one field of the component state. *)
Definition set_ui (f : UI -> UI) : M unit :=
  modify (fun s => {| ui := f (ui s); trace := trace s |}).

Definition setStatusMessage (x : string) : M unit :=
  set_ui (fun u => {| apiKey := apiKey u; file := file u; statusMessage := x;
                      errorMessage := errorMessage u; rawText := rawText u;
                      structuredData := structuredData u; isLoading := isLoading u |}).

Definition setErrorMessage (x : string) : M unit :=
  set_ui (fun u => {| apiKey := apiKey u; file := file u; statusMessage := statusMessage u;
                      errorMessage := x; rawText := rawText u;
                      structuredData := structuredData u; isLoading := isLoading u |}).

Definition setRawText (x : Value) : M unit :=
  set_ui (fun u => {| apiKey := apiKey u; file := file u; statusMessage := statusMessage u;
                      errorMessage := errorMessage u; rawText := x;
                      structuredData := structuredData u; isLoading := isLoading u |}).

Definition setStructuredData (x : Value) : M unit :=
  set_ui (fun u => {| apiKey := apiKey u; file := file u; statusMessage := statusMessage u;
                      errorMessage := errorMessage u; rawText := rawText u;
                      structuredData := x; isLoading := isLoading u |}).

Definition setIsLoading (x : bool) : M unit :=
  set_ui (fun u => {| apiKey := apiKey u; file := file u; statusMessage := statusMessage u;
                      errorMessage := errorMessage u; rawText := rawText u;
                      structuredData := structuredData u; isLoading := x |}).

(** [toBase64(file)]: the payload of the data URL the reader loads; the
    promise rejects with the reader's error event. *)
Definition toBase64 (f : File) : M Value :=
  w <- ask ;;
  emit (Read f) ;;
  match read_file w f with
  | Some data_url => ret (split_comma_1 data_url)
  | None => throw ProgressEvent
  end.

(** The body shared by every [catch] of [handleProcessClick]. *)
Definition report_failure (error : Exn) : M unit :=
  console_error "Error during processing:" (ArgExn error) ;;
  setErrorMessage (match exn_message error with
                   | Some "" | None => "An unknown error occurred."
                   | Some m => m
                   end).

(** The message of a non-ok response:
    [errorData.error?.message || "Unknown error"] under the given prefix. *)
Definition api_error (prefix : string) (errorData : Value) : M Exn :=
  err <- get errorData "error" ;;
  ret (Error (prefix ++ ToString (or_else (opt err "message") (VStr "Unknown error"))) None).

(** [data.candidates?.[0]?.content?.parts?.[0]?.text] *)
Definition candidate_text (data : Value) : M Value :=
  candidates <- get data "candidates" ;;
  ret (opt (opt0 (opt (opt (opt0 candidates) "content") "parts")) "text").

Definition post (payload : Value) : Options :=
  {| method := "POST";
     headers := [("Content-Type", "application/json")];
     body := payload |}.

End Language.

(** ** The multimodal page: one Gemini call behind a retrying fetch *)

Module Multimodal.

Section Page.

Context {E : Engine}.

Local Abbreviation Value := (JsValue number).

(** The instruction text sent with the image (a constant of the page). *)
Variable prompt : string.

(** What one pass through the body of the retry loop decides. *)
Inductive Step : Type :=
| Done (response : Response)     (* return response *)
| Break (lastError : Exn)        (* break *)
| Next (lastError : Exn).        (* fall through to i++ *)

(** The [try] block of the loop body. *)
Definition attempt (url : string) (options : Options) : M Response :=
  response <- fetch url options ;;
  if ((status response >=? 500) || (status response =? 429))%Z then
    throw (Error ("API returned status " ++ Z_toString (status response))
                 (Some (status response)))
  else if negb (ok response) then
    errorData <- response_json response ;;
    error <- api_error "API error: " errorData ;;
    throw error
  else
    ret response.

(** The delay before the retry that follows attempt [i]:
    [2 ** i * 1000 + Math.random() * 1000], in exact arithmetic.  The engine
    rounds each operation to a double: [backoff_in_doubles] below. *)
Definition backoff (i : Z) (random : Q) : Q :=
  inject_Z (2 ^ i * 1000) + random * 1000.

(** The loop body at index [i]: the [try] block and its [catch]. *)
Definition iteration (url : string) (options : Options) (i retries : Z) : M Step :=
  try_catch
    (response <- attempt url options ;; ret (Done response))
    (fun error =>
       if negb (status_truthy (exn_status error)) then throw error
       else if (i =? retries - 1)%Z then ret (Break error)
       else
         random <- Math_random ;;
         let delay := backoff i random in
         console_log ("Attempt " ++ Z_toString (i + 1)
                      ++ " failed with status " ++ status_text (exn_status error)
                      ++ ". Retrying in " ++ Z_toString (Math_round (delay / 1000))
                      ++ "s...") ;;
         sleep delay ;;
         ret (Next error)).

(** [for (let i = 0; i < retries; i++)] from index [i] on, with [left]
    iterations to go; the result is the response returned from inside the
    loop, or the value of [lastError] when the loop is left. *)
Fixpoint retry_loop (left : nat) (url : string) (options : Options)
    (i retries : Z) (lastError : option Exn) : M (Response + option Exn) :=
  match left with
  | O => ret (inr lastError)
  | S left' =>
      step <- iteration url options i retries ;;
      match step with
      | Done response => ret (inl response)
      | Break error => ret (inr (Some error))
      | Next error => retry_loop left' url options (i + 1) retries (Some error)
      end
  end.

(** [retries] is an integer; the page only ever passes the default.  With
    no iteration at all [lastError] is still undefined when its status is
    read after the loop. *)
Definition fetchWithRetry (url : string) (options : Options) (retries : Z) : M Response :=
  exit <- retry_loop (Z.to_nat retries) url options 0 retries None ;;
  match exit with
  | inl response => ret response
  | inr None => throw (TypeError "status")
  | inr (Some lastError) =>
      if status_truthy (exn_status lastError) then
        throw (Error ("The AI service is temporarily unavailable (Error "
                      ++ status_text (exn_status lastError)
                      ++ "). Please try again in a few moments.") None)
      else throw lastError
  end.

(** The default of the [retries] parameter. *)
Definition default_retries : Z := 4.

Record Extraction : Type := {
  extractedText : Value;
  extractedData : Value
}.

Definition API_URL (key : string) : string :=
  "https://generativelanguage.googleapis.com/v1beta/models/gemini-1.5-pro-latest:generateContent?key="
  ++ key.

Definition requestBody (imageBase64Content : Value) (mimeType : string) : Value :=
  VObj [("contents",
         VArr [VObj [("parts",
                      VArr [VObj [("text", VStr prompt)];
                            VObj [("inline_data",
                                   VObj [("mime_type", VStr mimeType);
                                         ("data", imageBase64Content)])]])]]);
        ("generationConfig", VObj [("response_mime_type", VStr "application/json")])].

Definition extractMedicalDataWithGemini (key : string)
    (imageBase64Content : Value) (mimeType : string) : M Extraction :=
  response <- fetchWithRetry (API_URL key)
                (post (requestBody imageBase64Content mimeType)) default_retries ;;
  data <- response_json response ;;
  responseText <- candidate_text data ;;
  if negb (truthy responseText) then
    throw (Error "Invalid response structure from Gemini API." None)
  else
    try_catch
      (parsedJson <- JSON_parse_value responseText ;;
       text <- get parsedJson "transcribedText" ;;
       data <- get parsedJson "structuredData" ;;
       ret {| extractedText := text; extractedData := data |})
      (fun _ =>
         console_error "Failed to parse JSON from Gemini response:" (ArgValue responseText) ;;
         throw (Error "Gemini API did not return valid JSON. See raw text for details." None)).

(** The click handler; [file] and [apiKey] are the ones of the render the
    handler closes over. *)
Definition handleProcessClick : M unit :=
  page <- gets ui ;;
  match file page with
  | None => setErrorMessage "Please upload a file first."
  | Some selected =>
      if apiKey page =? "" then setErrorMessage "Please enter your Google AI API key."
      else
        setErrorMessage "" ;;
        setRawText (VStr "") ;;
        setStructuredData VNull ;;
        setIsLoading true ;;
        setStatusMessage "Processing document..." ;;
        try_finally
          (try_catch
             (base64Content <- toBase64 selected ;;
              let mimeType := file_type selected in
              result <- extractMedicalDataWithGemini (apiKey page) base64Content mimeType ;;
              setRawText (extractedText result) ;;
              setStructuredData (extractedData result))
             report_failure)
          (setIsLoading false ;; setStatusMessage "")
  end.

End Page.

End Multimodal.

(** ** The two-stage page: Vision OCR, then Gemini on the text *)

Module TwoStage.

Section Page.

Context {E : Engine}.

Local Abbreviation Value := (JsValue number).

(** The instruction text around the OCR text (constants of the page). *)
Variables prompt_head prompt_tail : string.

Definition VISION_URL (key : string) : string :=
  "https://vision.googleapis.com/v1/images:annotate?key=" ++ key.

Definition GEMINI_URL (key : string) : string :=
  "https://generativelanguage.googleapis.com/v1beta/models/gemini-1.5-flash-latest:generateContent?key="
  ++ key.

Definition visionRequest (imageBase64Content : Value) : Value :=
  VObj [("requests",
         VArr [VObj [("image", VObj [("content", imageBase64Content)]);
                     ("features", VArr [VObj [("type", VStr "DOCUMENT_TEXT_DETECTION")]])]])].

Definition detectTextWithVisionAPI (key : string) (imageBase64Content : Value) : M Value :=
  response <- fetch (VISION_URL key) (post (visionRequest imageBase64Content)) ;;
  if negb (ok response) then
    errorData <- response_json response ;;
    error <- api_error "Vision API error: " errorData ;;
    throw error
  else
    data <- response_json response ;;
    responses <- get data "responses" ;;
    first_response <- get0 responses ;;
    let textAnnotations := opt first_response "textAnnotations" in
    if negb (truthy textAnnotations) || length_is_zero textAnnotations then
      throw (Error "No text found in the document by Vision API." None)
    else
      annotation <- get0 textAnnotations ;;
      get annotation "description".

Definition geminiRequest (text : Value) : Value :=
  VObj [("contents",
         VArr [VObj [("parts",
                      VArr [VObj [("text",
                                   VStr (prompt_head ++ ToString text ++ prompt_tail))]])]]);
        ("generationConfig", VObj [("responseMimeType", VStr "application/json")])].

Definition extractMedicalDataWithGemini (key : string) (text : Value) : M Value :=
  response <- fetch (GEMINI_URL key) (post (geminiRequest text)) ;;
  if negb (ok response) then
    errorData <- response_json response ;;
    error <- api_error "Gemini API error: " errorData ;;
    throw error
  else
    data <- response_json response ;;
    responseText <- candidate_text data ;;
    if negb (truthy responseText) then
      throw (Error "Invalid response structure from Gemini API." None)
    else
      try_catch
        (JSON_parse_value responseText)
        (fun _ =>
           console_error "Failed to parse JSON from Gemini response:" (ArgValue responseText) ;;
           throw (Error "Gemini API did not return valid JSON. See raw text for details." None)).

Definition handleProcessClick : M unit :=
  page <- gets ui ;;
  match file page with
  | None => setErrorMessage "Please upload a file first."
  | Some selected =>
      if apiKey page =? "" then setErrorMessage "Please enter your Google AI API key."
      else
        setErrorMessage "" ;;
        setRawText (VStr "") ;;
        setStructuredData VNull ;;
        setIsLoading true ;;
        try_finally
          (try_catch
             (base64Content <- toBase64 selected ;;
              setStatusMessage "Step 1/2: Extracting text with Vision API..." ;;
              detectedText <- detectTextWithVisionAPI (apiKey page) base64Content ;;
              setRawText detectedText ;;
              setStatusMessage "Step 2/2: Structuring data with Gemini API..." ;;
              extractedData <- extractMedicalDataWithGemini (apiKey page) detectedText ;;
              setStructuredData extractedData)
             report_failure)
          (setIsLoading false ;; setStatusMessage "")
  end.

End Page.

End TwoStage.

(** ** Vocabulary of the statements *)

Section Vocabulary.

Context {E : Engine}.

Local Abbreviation Value := (JsValue number).

(** The state once the program has made the calls [events] on top of [s],
    with the component state left alone. *)
Definition after (s : State) (events : list Event) : State :=
  {| ui := ui s; trace := trace s ++ events |}.

(** The statuses the retry loop treats as transient. *)
Definition transient (code : Z) : Prop := (500 <= code \/ code = 429)%Z.



(** The total time waited. *)
Definition total_delay (t : list Event) : Q := fold_right Qplus 0 (delays t).

(** The error thrown when the retry budget runs out on status [code]. *)
Definition unavailable (code : Z) : Exn :=
  Error ("The AI service is temporarily unavailable (Error " ++ Z_toString code
         ++ "). Please try again in a few moments.") None.

(** The error of the retry loop for a transient status. *)
Definition status_error (code : Z) : Exn :=
  Error ("API returned status " ++ Z_toString code) (Some code).

(** The calls of one failed attempt at index [i] that is followed by a retry,
    when [Math.random] answers [random]. *)
Definition failed_attempt (url : string) (options : Options) (i code : Z) (random : Q)
  : list Event :=
  [Fetched url options;
   Drew;
   Logged (ConsoleLog ("Attempt " ++ Z_toString (i + 1)
                       ++ " failed with status " ++ Z_toString code
                       ++ ". Retrying in "
                       ++ Z_toString (Math_round (Multimodal.backoff i random / 1000))
                       ++ "s..."));
   Slept (Multimodal.backoff i random)].

(** The calls of the attempts at indices [i], [i+1], ... that met the
    responses [front] and were each followed by a retry; [d] is the number
    of values drawn from [Math.random] before. *)
Fixpoint retried (url : string) (options : Options) (draws : nat -> Q)
    (i : Z) (d : nat) (front : list Response) : list Event :=
  match front with
  | [] => []
  | r :: rest =>
      failed_attempt url options i (status r) (draws d)
      ++ retried url options draws (i + 1) (S d) rest
  end.

(** The world answers the next fetch calls made from [s] with [outcomes]. *)
Definition answers (w : World) (s : State) (outcomes : list FetchOutcome) : Prop :=
  forall k o, nth_error outcomes k = Some o -> net w (fetch_count (trace s) + k) = o.

(** The value of [lastError] once the attempts that met [front] have failed. *)
Definition last_error (front : list Response) (lastError : option Exn) : option Exn :=
  fold_left (fun _ r => Some (status_error (status r))) front lastError.

(** The texts handed to JSON.parse, in order. *)
Fixpoint parses (t : list Event) : list string :=
  match t with
  | [] => []
  | Parsed text :: rest => text :: parses rest
  | _ :: rest => parses rest
  end.

(** [candidates[0].content.parts[0].text] of an envelope that is neither null
    nor undefined: undefined as soon as a link of the chain is missing. *)
Definition text_of (data : Value) : Value :=
  opt (opt0 (opt (opt (opt0 (own data "candidates")) "content") "parts")) "text".

(** The two errors of the orchestrator. *)
Definition invalid_structure : Exn :=
  Error "Invalid response structure from Gemini API." None.

Definition invalid_json : Exn :=
  Error "Gemini API did not return valid JSON. See raw text for details." None.

(** The console line that keeps the text JSON.parse refused. *)
Definition parse_failure_log (responseText : Value) : Event :=
  Logged (ConsoleError "Failed to parse JSON from Gemini response:" (ArgValue responseText)).

(** The exception [e] carries [text]: it has a message and [text] occurs in
    it (a message and a status are all an exception holds). *)
Definition carries (e : Exn) (text : string) : Prop :=
  exists message at_, exn_message e = Some message
                      /\ substring at_ (String.length text) message = text.

(** The top-level keys of the structured data the prompt asks for. *)
Definition schema_keys : list string :=
  ["patientInfo"; "diagnosis"; "prescriptions"; "testResults"].

(** The component state with the error message replaced. *)
Definition with_error (page : UI) (message : string) : UI :=
  {| apiKey := apiKey page; file := file page; statusMessage := statusMessage page;
     errorMessage := message; rawText := rawText page;
     structuredData := structuredData page; isLoading := isLoading page |}.

(** The calls of the multimodal extraction up to the response it decodes,
    when the responses [front] came before that one. *)
Definition gemini_calls (prompt key : string) (img : Value) (mime : string)
    (w : World) (s : State) (front : list Response) : list Event :=
  retried (Multimodal.API_URL key) (post (Multimodal.requestBody prompt img mime))
          (rnd w) 0 (draw_count (trace s)) front
  ++ [Fetched (Multimodal.API_URL key) (post (Multimodal.requestBody prompt img mime))].

(** The one call of each stage of the two-stage page. *)
Definition vision_call (key : string) (img : Value) : Event :=
  Fetched (TwoStage.VISION_URL key) (post (TwoStage.visionRequest img)).

Definition structuring_call (prompt_head prompt_tail key : string) (text : Value) : Event :=
  Fetched (TwoStage.GEMINI_URL key)
          (post (TwoStage.geminiRequest prompt_head prompt_tail text)).

(** A key of an object value. *)
Definition has_key (v : Value) (k : string) : Prop :=
  match v with
  | VObj fields => In k (map fst fields)
  | _ => False
  end.

End Vocabulary.

(** ** Sample inputs *)

(** The double quote, and a JSON string literal. *)
Definition dquote : string := String (ascii_of_nat 34) EmptyString.

Definition quoted (s : string) : string := dquote ++ s ++ dquote.

(** The text [{"transcribedText":"Rx","structuredData":{"diagnosis":null}}]
    and the value JSON.parse returns on it. *)
Definition partial_text : string :=
  "{" ++ quoted "transcribedText" ++ ":" ++ quoted "Rx" ++ ","
      ++ quoted "structuredData" ++ ":{" ++ quoted "diagnosis" ++ ":null}}".

Definition partial_value : JsValue Z :=
  VObj [("transcribedText", VStr "Rx");
        ("structuredData", VObj [("diagnosis", VNull)])].

(** A text that is not JSON. *)
Definition garbage_text : string := "<html>502 Bad Gateway</html>".

(** JSON.parse on the texts of the examples: [null], [{}], [[]] and
    [partial_text] are parsed as JSON.parse parses them, and [garbage_text],
    like every other text this table does not list, is refused. *)
Definition sample_parse (text : string) : option (JsValue Z) :=
  if text =? "null" then Some VNull
  else if text =? "{}" then Some (VObj [])
  else if text =? "[]" then Some (VArr [])
  else if text =? partial_text then Some partial_value
  else None.

(** An engine for the examples: integers for numbers. *)
Definition sample_engine : Engine :=
  {| number := Z;
     number_truthy := fun z => negb (z =? 0)%Z;
     Number_toString := fun z => NilZero.string_of_int (Z.to_int z);
     JSON_parse := sample_parse;
     engine_message := fun e =>
       match e with
       | SyntaxError => "Unexpected token"
       | TypeError prop => "Cannot read properties of null (reading '" ++ prop ++ "')"
       | NetworkError reason => reason
       | _ => ""
       end |}.

(** A world that answers the fetch calls with [outcomes] in turn (a dropped
    connection after them), draws 1/2 every time, and reads every file as a
    PNG data URL with the payload [payload]. *)
Definition scripted (outcomes : list (@FetchOutcome sample_engine)) (payload : string)
  : @World sample_engine :=
  {| net := fun k => nth k outcomes (Rejected "Failed to fetch");
     rnd := fun _ => 1 # 2;
     read_file := fun _ => Some ("data:image/png;base64," ++ payload) |}.

(** A response with the given status and JSON body ([None]: a body that is
    not JSON). *)
Definition answer (code : Z) (payload : option (JsValue Z)) : @Response sample_engine :=
  @Build_Response sample_engine code payload.

(** The envelope of a generation call around the text [text]. *)
Definition envelope (text : JsValue Z) : JsValue Z :=
  VObj [("candidates",
         VArr [VObj [("content", VObj [("parts", VArr [VObj [("text", text)]])])]])].

(** The page with the given key and file, before anything has happened. *)
Definition fresh (key : string) (selected : option File) : @State sample_engine :=
  {| ui := {| apiKey := key; file := selected; statusMessage := "";
              errorMessage := ""; rawText := VStr ""; structuredData := VNull;
              isLoading := false |};
     trace := [] |}.

(** The body of an API error with the given message. *)
Definition error_body (message : string) : JsValue Z :=
  VObj [("error", VObj [("message", VStr message)])].

(** The request the examples of the caller send. *)
Definition sample_url : string := "https://example.test/generate".

Definition sample_options : @Options sample_engine := post VNull.

(** The call the multimodal page makes for the key "key", the prompt
    "prompt" and a PNG file whose base64 payload is "QUJD", written out. *)
Definition sample_gemini_call : @Event sample_engine :=
  Fetched
    "https://generativelanguage.googleapis.com/v1beta/models/gemini-1.5-pro-latest:generateContent?key=key"
    {| method := "POST";
       headers := [("Content-Type", "application/json")];
       body :=
         VObj [("contents",
                VArr [VObj [("parts",
                             VArr [VObj [("text", VStr "prompt")];
                                   VObj [("inline_data",
                                          VObj [("mime_type", VStr "image/png");
                                                ("data", VStr "QUJD")])]])]]);
               ("generationConfig",
                VObj [("response_mime_type", VStr "application/json")])] |}.

(** An image file with no bytes, and one with three. *)
Definition empty_file : File := {| file_content := []; file_type := "image/png" |}.

Definition small_file : File :=
  {| file_content := [Byte.x41; Byte.x42; Byte.x43]; file_type := "image/png" |}.

(** ** What the page displays, and more vocabulary *)

Section Display.

Context {E : Engine}.

Local Abbreviation Value := (JsValue number).

(** The [disabled] attribute of the button: [!file || !apiKey || isLoading]. *)
Definition button_disabled (page : UI) : bool :=
  match file page with None => true | Some _ => false end
  || (apiKey page =? "") || isLoading page.

(** [errorMessage && ...]: the error box is rendered. *)
Definition shows_error (page : UI) : bool := negb (errorMessage page =? "").

(** [(rawText || structuredData) && !isLoading]: the results are rendered. *)
Definition shows_results (page : UI) : bool :=
  (truthy (rawText page) || truthy (structuredData page)) && negb (isLoading page).

(** [error.message || "An unknown error occurred."] *)
Definition shown_message (e : Exn) : string :=
  match exn_message e with
  | Some "" | None => "An unknown error occurred."
  | Some m => m
  end.

(** The console line of the click handler's [catch]. *)
Definition failure_log (e : Exn) : Event :=
  Logged (ConsoleError "Error during processing:" (ArgExn e)).

(** A computation that only adds calls to the trace: it leaves the
    component state and the calls made before alone. *)
Definition frames {A} (m : M A) : Prop :=
  forall w s, exists events, snd (m w s) = after s events.

(** How the retry loop ends on the outcome of its last fetch. *)
Definition loop_verdict (outcome : FetchOutcome)
    (exit : Outcome (Response + option Exn)) : Prop :=
  match outcome with
  | Rejected reason => exit = Throw (NetworkError reason)
  | Responded r =>
      (transient (status r) /\ exit = Return (inr (Some (status_error (status r)))))
      \/ (ok r = true /\ exit = Return (inl r))
      \/ (~ transient (status r) /\ ok r = false
          /\ exists e, exn_status e = None /\ exit = Throw e)
  end.

(** How [fetchWithRetry] ends on the outcome of its last fetch. *)
Definition caller_verdict (outcome : FetchOutcome) (exit : Outcome Response) : Prop :=
  match outcome with
  | Rejected reason => exit = Throw (NetworkError reason)
  | Responded r =>
      (transient (status r) /\ exit = Throw (unavailable (status r)))
      \/ (ok r = true /\ exit = Return r)
      \/ (~ transient (status r) /\ ok r = false
          /\ exists e, exn_status e = None /\ exit = Throw e)
  end.


(** The envelope of an OCR call around its annotations. *)
Definition annotations_of (data : Value) : Value :=
  opt (first (own data "responses")) "textAnnotations".

(** The error of the OCR call on a response without text. *)
Definition no_text_found : Exn :=
  Error "No text found in the document by Vision API." None.

(** The component state when the handler is over: the key and the file as
    they were, nothing loading, no status line. *)
Definition settled (s : State) (message : string) (raw data : Value) : UI :=
  {| apiKey := apiKey (ui s); file := file (ui s); statusMessage := "";
     errorMessage := message; rawText := raw; structuredData := data;
     isLoading := false |}.

(** The state in which the multimodal handler calls the extraction: the
    display reset, the file read. *)
Definition processing (s : State) (f : File) : State :=
  {| ui := {| apiKey := apiKey (ui s); file := file (ui s);
              statusMessage := "Processing document...";
              errorMessage := ""; rawText := VStr ""; structuredData := VNull;
              isLoading := true |};
     trace := trace s ++ [Read f] |}.

(** The states in which the two-stage handler makes its first and its second
    call, the second with the OCR text [text] on display. *)
Definition stage_one (s : State) (f : File) : State :=
  {| ui := {| apiKey := apiKey (ui s); file := file (ui s);
              statusMessage := "Step 1/2: Extracting text with Vision API...";
              errorMessage := ""; rawText := VStr ""; structuredData := VNull;
              isLoading := true |};
     trace := trace s ++ [Read f] |}.

Definition stage_two (s : State) (f : File) (img text : Value) : State :=
  {| ui := {| apiKey := apiKey (ui s); file := file (ui s);
              statusMessage := "Step 2/2: Structuring data with Gemini API...";
              errorMessage := ""; rawText := text; structuredData := VNull;
              isLoading := true |};
     trace := trace s ++ [Read f; vision_call (apiKey (ui s)) img] |}.

(** No comma in a string. *)
Fixpoint comma_free (s : string) : bool :=
  match s with
  | EmptyString => true
  | String c rest => negb (Ascii.eqb c ",") && comma_free rest
  end.

End Display.

(** An OCR response with one annotation. *)
Definition ocr_body (text : string) : JsValue Z :=
  VObj [("responses",
         VArr [VObj [("textAnnotations", VArr [VObj [("description", VStr text)]])]])].





(** A world like [scripted] whose file reader loads [loaded] for every file
    ([None]: the reader fails). *)
Definition reading (outcomes : list (@FetchOutcome sample_engine))
    (loaded : option string) : @World sample_engine :=
  {| net := fun k => nth k outcomes (Rejected "Failed to fetch");
     rnd := fun _ => 1 # 2;
     read_file := fun _ => loaded |}.

(** ** Running the platform calls *)

Unset Implicit Arguments.

Section Running.

Context {E : Engine}.

Local Abbreviation Value := (JsValue number).

Lemma after_nil (s : State) : after s [] = s.
Proof. destruct s; unfold after; simpl; now rewrite app_nil_r. Qed.

Lemma after_after (s : State) (a b : list Event) :
  after (after s a) b = after s (a ++ b).
Proof. unfold after; simpl; now rewrite app_assoc. Qed.

Lemma fetch_count_app (a b : list Event) :
  fetch_count (a ++ b) = (fetch_count a + fetch_count b)%nat.
Proof. unfold fetch_count; now rewrite filter_app, length_app. Qed.

Lemma fetch_count_after (s : State) (events : list Event) :
  fetch_count (trace (after s events)) = (fetch_count (trace s) + fetch_count events)%nat.
Proof. unfold after; cbn [trace]. apply fetch_count_app. Qed.

Lemma draw_count_app (a b : list Event) :
  draw_count (a ++ b) = (draw_count a + draw_count b)%nat.
Proof. unfold draw_count; now rewrite filter_app, length_app. Qed.

Lemma delays_app (a b : list Event) : delays (a ++ b) = (delays a ++ delays b)%list.
Proof.
  induction a as [|e a IH]; simpl; [reflexivity|].
  destruct e; simpl; now rewrite IH.
Qed.

Lemma run_fetch (url : string) (options : Options) (w : World) (s : State) :
  fetch url options w s =
  (match net w (fetch_count (trace s)) with
   | Responded r => Return r
   | Rejected reason => Throw (NetworkError reason)
   end, after s [Fetched url options]).
Proof.
  unfold fetch, bind, ask, gets, emit, modify, ret, throw; simpl.
  destruct (net w (fetch_count (trace s))); reflexivity.
Qed.

Lemma run_random (w : World) (s : State) :
  Math_random w s = (Return (rnd w (draw_count (trace s))), after s [Drew]).
Proof. reflexivity. Qed.

Lemma transient_nonzero (code : Z) :
  transient code -> status_truthy (Some code) = true.
Proof.
  unfold transient, status_truthy; intros H.
  apply negb_true_iff, Z.eqb_neq; lia.
Qed.

Lemma transient_test (code : Z) :
  transient code <-> ((code >=? 500) || (code =? 429))%Z = true.
Proof.
  unfold transient; rewrite orb_true_iff, Z.geb_le, Z.eqb_eq; tauto.
Qed.

Lemma ok_not_transient (r : Response) :
  ok r = true -> ((status r >=? 500) || (status r =? 429))%Z = false.
Proof.
  unfold ok; rewrite andb_true_iff, !Z.leb_le; intros [? ?].
  apply orb_false_iff; split; [rewrite Z.geb_leb; apply Z.leb_gt | apply Z.eqb_neq]; lia.
Qed.

(** *** The [try] block of the retry loop *)

Lemma attempt_transient url options w s r :
  net w (fetch_count (trace s)) = Responded r ->
  transient (status r) ->
  Multimodal.attempt url options w s =
  (Throw (status_error (status r)), after s [Fetched url options]).
Proof.
  intros Hnet Ht. apply transient_test in Ht.
  unfold Multimodal.attempt, bind. rewrite run_fetch, Hnet, Ht. reflexivity.
Qed.

Lemma attempt_ok url options w s r :
  net w (fetch_count (trace s)) = Responded r ->
  ok r = true ->
  Multimodal.attempt url options w s = (Return r, after s [Fetched url options]).
Proof.
  intros Hnet Hok.
  unfold Multimodal.attempt, bind.
  rewrite run_fetch, Hnet, (ok_not_transient _ Hok), Hok. reflexivity.
Qed.

Lemma attempt_rejected url options w s reason :
  net w (fetch_count (trace s)) = Rejected reason ->
  Multimodal.attempt url options w s =
  (Throw (NetworkError reason), after s [Fetched url options]).
Proof.
  intros Hnet. unfold Multimodal.attempt, bind. rewrite run_fetch, Hnet. reflexivity.
Qed.

(** A response that is neither transient nor ok ends the [try] block with an
    exception that has no status, after the one fetch. *)
Lemma attempt_permanent url options r :
  ~ transient (status r) ->
  ok r = false ->
  exists e, exn_status e = None /\
    (forall w s, net w (fetch_count (trace s)) = Responded r ->
       Multimodal.attempt url options w s = (Throw e, after s [Fetched url options])) /\
    (forall errorData, json r = Some errorData -> nullish errorData = false ->
       e = Error ("API error: " ++
                  ToString (or_else (opt (own errorData "error") "message")
                                    (VStr "Unknown error"))) None).
Proof.
  intros Ht Hok.
  assert (Hf : ((status r >=? 500) || (status r =? 429))%Z = false).
  { destruct ((status r >=? 500) || (status r =? 429))%Z eqn:T; [|reflexivity].
    apply transient_test in T; contradiction. }
  assert (Hrun : forall w s, net w (fetch_count (trace s)) = Responded r ->
            Multimodal.attempt url options w s =
            (errorData <- response_json r ;;
             error <- api_error "API error: " errorData ;;
             throw error) w (after s [Fetched url options])).
  { intros w s Hnet. unfold Multimodal.attempt. unfold bind at 1.
    now rewrite run_fetch, Hnet, Hf, Hok. }
  unfold response_json, api_error, get in Hrun.
  destruct (json r) as [errorData|] eqn:Hjson.
  - destruct (nullish errorData) eqn:N.
    + exists (TypeError "error"). split; [reflexivity|]. split.
      * intros w s Hnet. rewrite (Hrun w s Hnet). unfold bind, ret. now rewrite N.
      * intros d Hd Hn. inversion Hd; subst. congruence.
    + eexists. split; [|split].
      2: { intros w s Hnet. rewrite (Hrun w s Hnet). unfold bind, ret. rewrite N.
           reflexivity. }
      * reflexivity.
      * intros d Hd _. inversion Hd; subst. reflexivity.
  - exists SyntaxError. split; [reflexivity|]. split.
    + intros w s Hnet. rewrite (Hrun w s Hnet). reflexivity.
    + intros d Hd. discriminate.
Qed.

(** *** One pass through the loop body *)

Lemma iteration_retry url options i retries w s r :
  net w (fetch_count (trace s)) = Responded r ->
  transient (status r) ->
  i <> (retries - 1)%Z ->
  Multimodal.iteration url options i retries w s =
  (Return (Multimodal.Next (status_error (status r))),
   after s (failed_attempt url options i (status r) (rnd w (draw_count (trace s))))).
Proof.
  intros Hnet Ht Hi.
  unfold Multimodal.iteration, try_catch, bind at 1.
  rewrite (attempt_transient _ _ _ _ _ Hnet Ht).
  unfold status_error at 1; cbn [exn_status].
  rewrite (transient_nonzero _ Ht); cbn [negb].
  apply Z.eqb_neq in Hi; rewrite Hi.
  unfold bind, console_log, sleep, emit, modify. rewrite run_random.
  unfold after, failed_attempt, status_error; cbn [ui trace exn_status status_text].
  rewrite draw_count_app; cbn [draw_count filter is_draw length].
  rewrite Nat.add_0_r, <- !app_assoc. reflexivity.
Qed.

Lemma iteration_last url options i retries w s r :
  net w (fetch_count (trace s)) = Responded r ->
  transient (status r) ->
  i = (retries - 1)%Z ->
  Multimodal.iteration url options i retries w s =
  (Return (Multimodal.Break (status_error (status r))), after s [Fetched url options]).
Proof.
  intros Hnet Ht Hi.
  unfold Multimodal.iteration, try_catch, bind at 1.
  rewrite (attempt_transient _ _ _ _ _ Hnet Ht).
  unfold status_error at 1; cbn [exn_status].
  rewrite (transient_nonzero _ Ht); cbn [negb].
  apply Z.eqb_eq in Hi; rewrite Hi. reflexivity.
Qed.

Lemma iteration_ok url options i retries w s r :
  net w (fetch_count (trace s)) = Responded r ->
  ok r = true ->
  Multimodal.iteration url options i retries w s =
  (Return (Multimodal.Done r), after s [Fetched url options]).
Proof.
  intros Hnet Hok.
  unfold Multimodal.iteration, try_catch, bind.
  rewrite (attempt_ok _ _ _ _ _ Hnet Hok). reflexivity.
Qed.

(** An exception without a status leaves the loop body as it came. *)
Lemma iteration_rethrows url options i retries w s e s' :
  Multimodal.attempt url options w s = (Throw e, s') ->
  exn_status e = None ->
  Multimodal.iteration url options i retries w s = (Throw e, s').
Proof.
  intros Ha He.
  unfold Multimodal.iteration, try_catch, bind.
  rewrite Ha, He. reflexivity.
Qed.

(** *** The loop over a run of transient responses *)

Lemma answers_head w s o rest :
  answers w s (o :: rest) -> net w (fetch_count (trace s)) = o.
Proof. intros H. rewrite <- (H 0%nat o eq_refl). f_equal; lia. Qed.

Lemma answers_tail w s o rest events :
  answers w s (o :: rest) ->
  fetch_count events = 1%nat ->
  answers w (after s events) rest.
Proof.
  intros H Hc k o' Hk. unfold after; cbn [trace].
  rewrite fetch_count_app, Hc, <- (H (S k) o' Hk). f_equal; lia.
Qed.

Lemma fetch_count_failed_attempt url options i code random :
  fetch_count (failed_attempt url options i code random) = 1%nat.
Proof. reflexivity. Qed.

Lemma draw_count_failed_attempt url options i code random :
  draw_count (failed_attempt url options i code random) = 1%nat.
Proof. reflexivity. Qed.

Lemma retry_loop_front url options retries w :
  forall front rest left i s lastError,
    answers w s (map Responded front ++ rest) ->
    Forall (fun r => transient (status r)) front ->
    (i + Z.of_nat (length front) < retries)%Z ->
    (length front <= left)%nat ->
    Multimodal.retry_loop left url options i retries lastError w s =
    Multimodal.retry_loop (left - length front) url options
      (i + Z.of_nat (length front)) retries (last_error front lastError) w
      (after s (retried url options (rnd w) i (draw_count (trace s)) front)).
Proof.
  induction front as [|r front IH]; intros rest left i s lastError Hans Htr Hi Hleft.
  - cbn [length retried last_error fold_left]. rewrite after_nil, Nat.sub_0_r.
    now replace (i + Z.of_nat 0)%Z with i by lia.
  - cbn [length] in Hi, Hleft. destruct left as [|left]; [lia|].
    inversion Htr as [|? ? Hr Hfront]; subst.
    cbn [map app] in Hans.
    cbn [Multimodal.retry_loop]. unfold bind at 1.
    rewrite (iteration_retry url options i retries w s r
               (answers_head _ _ _ _ Hans) Hr) by lia.
    rewrite (IH rest left (i + 1)%Z _ (Some (status_error (status r)))).
    + cbn [length retried last_error fold_left Nat.sub].
      rewrite after_after. unfold after at 2; cbn [trace].
      rewrite draw_count_app, draw_count_failed_attempt.
      replace (draw_count (trace s) + 1)%nat with (S (draw_count (trace s))) by lia.
      replace (i + 1 + Z.of_nat (length front))%Z
        with (i + Z.of_nat (S (length front)))%Z by lia.
      reflexivity.
    + apply (answers_tail _ _ _ _ _ Hans), fetch_count_failed_attempt.
    + exact Hfront.
    + lia.
    + lia.
Qed.

Lemma fetch_count_retried url options draws :
  forall front i d, fetch_count (retried url options draws i d front) = length front.
Proof.
  induction front as [|r front IH]; intros i d; [reflexivity|].
  cbn [retried length]. rewrite fetch_count_app, IH. reflexivity.
Qed.


(** Every attempt of a run of retries sends the same request. *)
Lemma fetched_in_retried url options draws :
  forall front i d u o,
    In (Fetched u o) (retried url options draws i d front) -> u = url /\ o = options.
Proof.
  induction front as [|r front IH]; intros i d u o H; [destruct H|].
  cbn [retried failed_attempt app] in H.
  destruct H as [H|[H|[H|[H|H]]]]; try discriminate H.
  - inversion H. split; reflexivity.
  - exact (IH _ _ _ _ H).
Qed.

Lemma delays_retried url options draws :
  forall front i d,
    delays (retried url options draws i d front) =
    map (fun k => Multimodal.backoff (i + Z.of_nat k) (draws (d + k)%nat))
        (seq 0 (length front)).
Proof.
  induction front as [|r front IH]; intros i d; [reflexivity|].
  cbn [retried length seq map]. rewrite delays_app, IH.
  cbn [failed_attempt delays app]. f_equal.
  - now rewrite Z.add_0_r, Nat.add_0_r.
  - rewrite <- seq_shift, map_map. apply map_ext; intros k.
    f_equal; [lia | f_equal; lia].
Qed.

(** Where the run stands when the attempts that met [front] are over. *)
Lemma fetchWithRetry_front url options retries w s front rest :
  answers w s (map Responded front ++ rest) ->
  Forall (fun r => transient (status r)) front ->
  (Z.of_nat (length front) < retries)%Z ->
  Multimodal.retry_loop (Z.to_nat retries) url options 0 retries None w s =
  Multimodal.retry_loop (Z.to_nat retries - length front) url options
    (Z.of_nat (length front)) retries (last_error front None) w
    (after s (retried url options (rnd w) 0 (draw_count (trace s)) front)).
Proof.
  intros Hans Htr Hlen.
  rewrite (retry_loop_front url options retries w front rest
             (Z.to_nat retries) 0%Z s None Hans Htr); [reflexivity | lia | lia].
Qed.

Lemma answers_after_front w s front rest url options draws i d :
  answers w s (map Responded front ++ rest) ->
  answers w (after s (retried url options draws i d front)) rest.
Proof.
  intros H k o Hk. unfold after; cbn [trace].
  rewrite fetch_count_app, fetch_count_retried.
  rewrite <- (H (length front + k)%nat o); [f_equal; lia|].
  rewrite nth_error_app2; rewrite length_map; [|lia].
  now replace (length front + k - length front)%nat with k by lia.
Qed.

End Running.

(** ** The resilient caller *)

Section Caller.

Context {E : Engine}.

Local Abbreviation Value := (JsValue number).

Variables (url : string) (options : Options).

(** The loop leaves the state it reached to the code after it. *)
Lemma fetchWithRetry_state retries w s :
  snd (Multimodal.fetchWithRetry url options retries w s) =
  snd (Multimodal.retry_loop (Z.to_nat retries) url options 0 retries None w s).
Proof.
  unfold Multimodal.fetchWithRetry, bind.
  destruct (Multimodal.retry_loop _ _ _ _ _ _ w s) as [[[r|[e|]]|e] s']; cbn;
    try reflexivity.
  destruct (status_truthy (exn_status e)); reflexivity.
Qed.

(** A run of transient responses, then a response that is ok: the caller
    returns it. *)
Lemma fetchWithRetry_returns retries w s front final :
  answers w s (map Responded front ++ [Responded final]) ->
  Forall (fun r => transient (status r)) front ->
  (Z.of_nat (length front) < retries)%Z ->
  ok final = true ->
  Multimodal.fetchWithRetry url options retries w s =
  (Return final,
   after s (retried url options (rnd w) 0 (draw_count (trace s)) front
            ++ [Fetched url options])).
Proof.
  intros Hans Htr Hlen Hok.
  unfold Multimodal.fetchWithRetry, bind.
  rewrite (fetchWithRetry_front _ _ _ _ _ _ _ Hans Htr Hlen).
  destruct (Z.to_nat retries - length front)%nat as [|left] eqn:Hleft; [lia|].
  cbn [Multimodal.retry_loop]. unfold bind.
  rewrite (iteration_ok _ _ _ _ _ _ final
             (answers_head _ _ _ _ (answers_after_front _ _ _ _ _ _ _ _ _ Hans)) Hok).
  cbn. now rewrite after_after.
Qed.

(** A run of transient responses, then an outcome that throws without a
    status: the caller throws the same. *)
Lemma fetchWithRetry_rethrows retries w s front outcome e :
  answers w s (map Responded front ++ [outcome]) ->
  Forall (fun r => transient (status r)) front ->
  (Z.of_nat (length front) < retries)%Z ->
  (forall s', net w (fetch_count (trace s')) = outcome ->
     Multimodal.attempt url options w s' = (Throw e, after s' [Fetched url options])) ->
  exn_status e = None ->
  Multimodal.fetchWithRetry url options retries w s =
  (Throw e,
   after s (retried url options (rnd w) 0 (draw_count (trace s)) front
            ++ [Fetched url options])).
Proof.
  intros Hans Htr Hlen Hatt He.
  unfold Multimodal.fetchWithRetry, bind.
  rewrite (fetchWithRetry_front _ _ _ _ _ _ _ Hans Htr Hlen).
  destruct (Z.to_nat retries - length front)%nat as [|left] eqn:Hleft; [lia|].
  cbn [Multimodal.retry_loop]. unfold bind.
  rewrite (iteration_rethrows _ _ _ _ _ _ e _
             (Hatt _ (answers_head _ _ _ _ (answers_after_front _ _ _ _ _ _ _ _ _ Hans)))
             He).
  now rewrite after_after.
Qed.

(** Every fetch of the loop that is followed by another one met a transient
    status. *)
Lemma retry_loop_retries_status retries w :
  forall left i s lastError k,
    (fetch_count (trace s) + k + 1 <
     fetch_count (trace (snd (Multimodal.retry_loop left url options i retries
                                lastError w s))))%nat ->
    exists r, net w (fetch_count (trace s) + k) = Responded r /\ transient (status r).
Proof.
  induction left as [|left IH]; intros i s lastError k Hk.
  - cbn in Hk. lia.
  - cbn [Multimodal.retry_loop] in Hk. unfold bind in Hk.
    destruct (net w (fetch_count (trace s))) as [r|reason] eqn:Hnet.
    + destruct ((status r >=? 500) || (status r =? 429))%Z eqn:Ht.
      * apply transient_test in Ht.
        destruct (Z.eq_dec i (retries - 1)) as [Hi|Hi].
        -- rewrite (iteration_last _ _ _ _ _ _ _ Hnet Ht Hi) in Hk.
           unfold ret in Hk; cbn [snd] in Hk. rewrite fetch_count_after in Hk. cbn in Hk. lia.
        -- rewrite (iteration_retry _ _ _ _ _ _ _ Hnet Ht Hi) in Hk.
           set (s1 := after s _) in Hk.
           assert (H1 : fetch_count (trace s1) = (fetch_count (trace s) + 1)%nat).
           { unfold s1, after; cbn [trace]. now rewrite fetch_count_app. }
           destruct k as [|k].
           ++ exists r. now rewrite Nat.add_0_r.
           ++ destruct (IH (i + 1)%Z s1 (Some (status_error (status r))) k) as [r' Hr'].
              ** rewrite H1. lia.
              ** exists r'. rewrite H1 in Hr'.
                 now replace (fetch_count (trace s) + S k)%nat
                   with (fetch_count (trace s) + 1 + k)%nat by lia.
      * assert (Hnt : ~ transient (status r)).
        { intros T. apply transient_test in T. congruence. }
        destruct (ok r) eqn:Hok.
        -- rewrite (iteration_ok _ _ _ _ _ _ _ Hnet Hok) in Hk.
           unfold ret in Hk; cbn [snd] in Hk. rewrite fetch_count_after in Hk. cbn in Hk. lia.
        -- destruct (attempt_permanent url options r Hnt Hok) as (e & He & Ha & _).
           rewrite (iteration_rethrows _ _ _ _ _ _ _ _ (Ha w s Hnet) He) in Hk.
           unfold ret in Hk; cbn [snd] in Hk. rewrite fetch_count_after in Hk. cbn in Hk. lia.
    + rewrite (iteration_rethrows _ _ _ _ _ _ _ _
                 (attempt_rejected url options w s reason Hnet) eq_refl) in Hk.
      unfold ret in Hk; cbn [snd] in Hk. rewrite fetch_count_after in Hk. cbn in Hk. lia.
Qed.

End Caller.

(** ** Claims about the resilient caller *)


Section CallerClaims.

Context {E : Engine}.

Local Abbreviation Value := (JsValue number).

Variables (url : string) (options : Options).


(** C7.  With a budget of 4, three responses with status 503 and then a 2xx
    response: the caller returns the fourth response after exactly 4 fetch
    calls, and the delays it waited add up to at least 1000 + 2000 + 4000 ms. *)
Theorem fetchWithRetry_recovers_on_fourth_attempt
    (w : World) (s : State) (r1 r2 r3 r4 : Response) :
  answers w s (map Responded [r1; r2; r3; r4]) ->
  status r1 = 503%Z -> status r2 = 503%Z -> status r3 = 503%Z ->
  ok r4 = true ->
  (forall k, 0 <= rnd w k)%Q ->
  let calls := (retried url options (rnd w) 0 (draw_count (trace s)) [r1; r2; r3]
                ++ [Fetched url options])%list in
  Multimodal.fetchWithRetry url options 4 w s = (Return r4, after s calls)
  /\ fetch_count calls = 4%nat
  /\ (1000 + 2000 + 4000 <= total_delay calls)%Q.
Proof.
  intros Hans H1 H2 H3 Hok Hrnd calls.
  assert (Htr : Forall (fun r => transient (status r)) [r1; r2; r3]).
  { repeat constructor; unfold transient; lia. }
  split; [|split].
  - apply (fetchWithRetry_returns url options 4 w s [r1; r2; r3] r4 Hans Htr);
      [cbn; lia | exact Hok].
  - reflexivity.
  - unfold total_delay, calls. rewrite delays_app, delays_retried.
    cbn [length seq map delays app fold_right Z.of_nat].
    unfold Multimodal.backoff.
    pose proof (Hrnd (draw_count (trace s) + 0)%nat).
    pose proof (Hrnd (draw_count (trace s) + 1)%nat).
    pose proof (Hrnd (draw_count (trace s) + 2)%nat).
    change (inject_Z (2 ^ (0 + 0) * 1000)) with 1000%Q.
    change (inject_Z (2 ^ (0 + Z.pos (Pos.of_succ_nat 0)) * 1000)) with 2000%Q.
    change (inject_Z (2 ^ (0 + Z.pos (Pos.of_succ_nat 1)) * 1000)) with 4000%Q.
    lra.
Qed.

(** C4 (as amended).  A response whose status is neither 2xx nor transient
    ends the call on that attempt: one fetch, no draw, no wait, no retry, and
    an exception.  When the body of the response is JSON other than null, the
    exception is an Error whose message is "API error: " followed by the
    body's error.message if that is a non-empty string, and by "Unknown
    error" if it is missing or falsy. *)
Theorem fetchWithRetry_permanent_fails_fast
    (retries : Z) (w : World) (s : State) (r : Response) :
  (1 <= retries)%Z ->
  net w (fetch_count (trace s)) = Responded r ->
  ok r = false ->
  ~ transient (status r) ->
  exists e,
    Multimodal.fetchWithRetry url options retries w s =
      (Throw e, after s [Fetched url options])
    /\ forall errorData,
         json r = Some errorData -> nullish errorData = false ->
         let message := opt (own errorData "error") "message" in
         (forall text, message = VStr text -> text <> "" ->
            e = Error ("API error: " ++ text) None)
         /\ (truthy message = false -> e = Error "API error: Unknown error" None).
Proof.
  intros Hret Hnet Hok Hnt.
  destruct (attempt_permanent url options r Hnt Hok) as (e & He & Ha & Hmsg).
  exists e. split.
  - assert (Hans : answers w s (map Responded [] ++ [Responded r])).
    { intros [|[|k]] o Hk; cbn in Hk; try discriminate.
      inversion Hk; subst. now rewrite Nat.add_0_r. }
    rewrite (fetchWithRetry_rethrows url options retries w s [] (Responded r) e Hans);
      [reflexivity | constructor | cbn; lia | | exact He].
    intros s' Hs'. exact (Ha w s' Hs').
  - intros errorData Hjson Hnull message.
    specialize (Hmsg errorData Hjson Hnull). fold message in Hmsg.
    unfold or_else in Hmsg.
    split.
    + intros text Hm Htext. rewrite Hm in Hmsg. cbn [truthy] in Hmsg.
      apply String.eqb_neq in Htext. rewrite Htext in Hmsg. exact Hmsg.
    + intros Hf. now rewrite Hf in Hmsg.
Qed.

(** C5.  A fetch that rejects (a network failure: no response, no status) ends
    the call at once, whatever is left of the budget: the rejection itself is
    thrown and nothing is drawn or waited after the fetch that failed.  And
    no fetch is ever followed by another unless it met a transient status. *)
Theorem fetchWithRetry_network_failure_propagates
    (retries : Z) (w : World) (s : State) :
  (forall front reason,
     answers w s (map Responded front ++ [Rejected reason]) ->
     Forall (fun r => transient (status r)) front ->
     (Z.of_nat (length front) < retries)%Z ->
     Multimodal.fetchWithRetry url options retries w s =
       (Throw (NetworkError reason),
        after s (retried url options (rnd w) 0 (draw_count (trace s)) front
                 ++ [Fetched url options])))
  /\ (forall k,
        (fetch_count (trace s) + k + 1 <
         fetch_count (trace (snd (Multimodal.fetchWithRetry url options retries w s))))%nat ->
        exists r, net w (fetch_count (trace s) + k) = Responded r
                  /\ transient (status r)).
Proof.
  split.
  - intros front reason Hans Htr Hlen.
    apply (fetchWithRetry_rethrows url options retries w s front (Rejected reason)
             (NetworkError reason) Hans Htr Hlen); [|reflexivity].
    intros s' Hs'. now apply attempt_rejected.
  - intros k Hk. rewrite fetchWithRetry_state in Hk.
    exact (retry_loop_retries_status url options retries w _ _ _ _ _ Hk).
Qed.

End CallerClaims.

(** ** The orchestrator *)

Section Orchestrator.

Context {E : Engine}.

Local Abbreviation Value := (JsValue number).

Variables (prompt prompt_head prompt_tail : string).

Lemma parses_app (a b : list Event) : parses (a ++ b) = (parses a ++ parses b)%list.
Proof.
  induction a as [|e a IH]; cbn [app parses]; [reflexivity|].
  destruct e; cbn [app]; now rewrite IH.
Qed.

Lemma parses_retried url options draws :
  forall front i d, parses (retried url options draws i d front) = [].
Proof.
  induction front as [|r front IH]; intros i d; [reflexivity|].
  cbn [retried]. rewrite parses_app, IH. reflexivity.
Qed.

Lemma own_missing (v : Value) (k : string) : ~ has_key v k -> own v k = VUndefined.
Proof.
  destruct v as [| | | | |items|fields]; try reflexivity.
  cbn [own has_key]. induction fields as [|[k' x] fields IH]; intros H; [reflexivity|].
  cbn [lookup]. destruct (k' =? k) eqn:Hk.
  - apply String.eqb_eq in Hk. exfalso. apply H. left. exact Hk.
  - apply IH. intros Hin. apply H. right. exact Hin.
Qed.

(** A 2xx response, possibly after transient ones: the multimodal
    extraction goes on to decode it. *)
Lemma multimodal_reaches_decoding key img mime w s front final :
  answers w s (map Responded front ++ [Responded final]) ->
  Forall (fun r => transient (status r)) front ->
  (length front < 4)%nat ->
  ok final = true ->
  Multimodal.extractMedicalDataWithGemini prompt key img mime w s =
  (data <- response_json final ;;
   responseText <- candidate_text data ;;
   if negb (truthy responseText) then throw invalid_structure
   else
     try_catch
       (parsedJson <- JSON_parse_value responseText ;;
        text <- get parsedJson "transcribedText" ;;
        data <- get parsedJson "structuredData" ;;
        ret {| Multimodal.extractedText := text; Multimodal.extractedData := data |})
       (fun _ =>
          emit (parse_failure_log responseText) ;;
          throw invalid_json))
    w (after s (gemini_calls prompt key img mime w s front)).
Proof.
  intros Hans Htr Hlen Hok.
  unfold Multimodal.extractMedicalDataWithGemini. unfold bind at 1.
  rewrite (fetchWithRetry_returns _ _ Multimodal.default_retries w s front final
             Hans Htr); [reflexivity | unfold Multimodal.default_retries; lia | exact Hok].
Qed.

(** A 2xx response: the structuring call of the two-stage page goes on to
    decode it. *)
Lemma two_stage_reaches_decoding key text w s final :
  net w (fetch_count (trace s)) = Responded final ->
  ok final = true ->
  TwoStage.extractMedicalDataWithGemini prompt_head prompt_tail key text w s =
  (data <- response_json final ;;
   responseText <- candidate_text data ;;
   if negb (truthy responseText) then throw invalid_structure
   else
     try_catch
       (JSON_parse_value responseText)
       (fun _ =>
          emit (parse_failure_log responseText) ;;
          throw invalid_json))
    w (after s [structuring_call prompt_head prompt_tail key text]).
Proof.
  intros Hnet Hok.
  unfold TwoStage.extractMedicalDataWithGemini. unfold bind at 1.
  rewrite run_fetch, Hnet, Hok. reflexivity.
Qed.

(** Decoding an envelope that is not null, up to the test of its text. *)
Lemma decoding_reads_text {A} (final : Response) (data : Value)
    (k : Value -> M A) (w : World) (s : State) :
  json final = Some data ->
  nullish data = false ->
  (data <- response_json final ;; responseText <- candidate_text data ;; k responseText) w s
  = k (text_of data) w s.
Proof.
  intros Hjson Hnull.
  unfold response_json, candidate_text, get, bind, ret. rewrite Hjson, Hnull.
  reflexivity.
Qed.

(** A text that is a non-empty string and parses to a value other than
    null: the multimodal extraction returns the two properties it reads. *)
Lemma multimodal_returns key img mime w s front final data raw parsed :
  answers w s (map Responded front ++ [Responded final]) ->
  Forall (fun r => transient (status r)) front ->
  (length front < 4)%nat ->
  ok final = true ->
  json final = Some data ->
  nullish data = false ->
  text_of data = VStr raw ->
  raw <> "" ->
  JSON_parse raw = Some parsed ->
  nullish parsed = false ->
  Multimodal.extractMedicalDataWithGemini prompt key img mime w s =
  (Return {| Multimodal.extractedText := own parsed "transcribedText";
             Multimodal.extractedData := own parsed "structuredData" |},
   after s (gemini_calls prompt key img mime w s front ++ [Parsed raw])).
Proof.
  intros Hans Htr Hlen Hok Hjson Hnull Htext Hraw Hparse Hparsed.
  rewrite (multimodal_reaches_decoding key img mime w s front final Hans Htr Hlen Hok).
  rewrite (decoding_reads_text final data _ w _ Hjson Hnull), Htext.
  cbn [truthy]. apply String.eqb_neq in Hraw. rewrite Hraw. cbn [negb].
  unfold try_catch, JSON_parse_value, get, bind, emit, modify, ret.
  cbn [ToString]. rewrite Hparse, Hparsed. cbn. rewrite <- !app_assoc. reflexivity.
Qed.

End Orchestrator.

(** ** Claims about the orchestrator *)

Section OrchestratorClaims.

Context {E : Engine}.

Local Abbreviation Value := (JsValue number).

Variables (prompt prompt_head prompt_tail : string).

(** C2 (as amended).  When the text of a 2xx response is a non-empty string
    that JSON.parse refuses, the extraction fails with an Error that has the
    message "Gemini API did not return valid JSON. See raw text for details."
    and no other field: the error is the same whatever the text was, the
    text is not copied into it.  The text itself is kept in one place only,
    the console.error line written just before the throw.  This holds for
    the multimodal page (after any transient responses that were retried)
    and for the structuring call of the two-stage page on an OCR text that
    is a string. *)
Theorem unparsable_text_is_logged_not_thrown
    (key : string) (img : Value) (ocr mime : string) (w : World) (s : State)
    (front : list Response) (final : Response) (data : Value) (raw : string) :
  answers w s (map Responded front ++ [Responded final]) ->
  Forall (fun r => transient (status r)) front ->
  (length front < 4)%nat ->
  ok final = true ->
  json final = Some data ->
  nullish data = false ->
  text_of data = VStr raw ->
  raw <> "" ->
  JSON_parse raw = None ->
  let thrown :=
    Error "Gemini API did not return valid JSON. See raw text for details." None in
  let logged :=
    Logged (ConsoleError "Failed to parse JSON from Gemini response:"
                         (ArgValue (VStr raw))) in
  Multimodal.extractMedicalDataWithGemini prompt key img mime w s =
    (Throw thrown,
     after s (gemini_calls prompt key img mime w s front ++ [Parsed raw; logged]))
  /\ (front = [] ->
      TwoStage.extractMedicalDataWithGemini prompt_head prompt_tail key (VStr ocr) w s =
        (Throw thrown,
         after s [structuring_call prompt_head prompt_tail key (VStr ocr);
                  Parsed raw; logged])).
Proof.
  intros Hans Htr Hlen Hok Hjson Hnull Htext Hraw Hparse thrown logged.
  subst thrown logged.
  apply String.eqb_neq in Hraw.
  split.
  - rewrite (multimodal_reaches_decoding prompt key img mime w s front final
               Hans Htr Hlen Hok).
    rewrite (decoding_reads_text final data _ w _ Hjson Hnull), Htext.
    cbn [truthy]. rewrite Hraw. cbn [negb].
    unfold try_catch, JSON_parse_value, bind, emit, modify, ret, throw.
    cbn [ToString]. rewrite Hparse. cbn. rewrite <- !app_assoc. reflexivity.
  - intros Hfront. subst front.
    rewrite (two_stage_reaches_decoding prompt_head prompt_tail key (VStr ocr) w s final
               (answers_head _ _ _ _ Hans) Hok).
    rewrite (decoding_reads_text final data _ w _ Hjson Hnull), Htext.
    cbn [truthy]. rewrite Hraw. cbn [negb].
    unfold try_catch, JSON_parse_value, bind, emit, modify, ret, throw.
    cbn [ToString]. rewrite Hparse. cbn. rewrite <- !app_assoc. reflexivity.
Qed.

(** C3 (as amended).  When the text of a 2xx response is JSON (other than
    null), the multimodal extraction returns as extractedData the value of
    the structuredData property of that JSON, as it is: a key the backend
    left out of it is missing from the result too, nothing is filled in. *)
Theorem extracted_data_is_passed_through
    (key : string) (img : Value) (mime : string) (w : World) (s : State)
    (front : list Response) (final : Response) (data : Value) (raw : string)
    (parsed : Value) :
  answers w s (map Responded front ++ [Responded final]) ->
  Forall (fun r => transient (status r)) front ->
  (length front < 4)%nat ->
  ok final = true ->
  json final = Some data ->
  nullish data = false ->
  text_of data = VStr raw ->
  raw <> "" ->
  JSON_parse raw = Some parsed ->
  nullish parsed = false ->
  exists result s',
    Multimodal.extractMedicalDataWithGemini prompt key img mime w s = (Return result, s')
    /\ Multimodal.extractedData result = own parsed "structuredData"
    /\ forall k, In k schema_keys ->
         (has_key (Multimodal.extractedData result) k
          <-> has_key (own parsed "structuredData") k).
Proof.
  intros Hans Htr Hlen Hok Hjson Hnull Htext Hraw Hparse Hparsed.
  eexists. eexists. split; [|split].
  - apply (multimodal_returns prompt key img mime w s front final data raw parsed);
      assumption.
  - reflexivity.
  - intros k _. reflexivity.
Qed.

(** C10 (as amended).  When the text of a 2xx response is JSON other than
    null, the multimodal extraction succeeds whatever that JSON holds: a
    missing transcribedText key gives an undefined extractedText, a missing
    structuredData key an undefined extractedData; an array, a number or a
    string has neither key. *)
Theorem missing_keys_give_undefined
    (key : string) (img : Value) (mime : string) (w : World) (s : State)
    (front : list Response) (final : Response) (data : Value) (raw : string)
    (parsed : Value) :
  answers w s (map Responded front ++ [Responded final]) ->
  Forall (fun r => transient (status r)) front ->
  (length front < 4)%nat ->
  ok final = true ->
  json final = Some data ->
  nullish data = false ->
  text_of data = VStr raw ->
  raw <> "" ->
  JSON_parse raw = Some parsed ->
  nullish parsed = false ->
  exists result s',
    Multimodal.extractMedicalDataWithGemini prompt key img mime w s = (Return result, s')
    /\ (~ has_key parsed "transcribedText" -> Multimodal.extractedText result = VUndefined)
    /\ (~ has_key parsed "structuredData" -> Multimodal.extractedData result = VUndefined).
Proof.
  intros Hans Htr Hlen Hok Hjson Hnull Htext Hraw Hparse Hparsed.
  eexists. eexists. split; [|split].
  - apply (multimodal_returns prompt key img mime w s front final data raw parsed);
      assumption.
  - apply own_missing.
  - apply own_missing.
Qed.

(** C6 (as amended).  When the envelope of a 2xx response is JSON other than
    null and its text candidates[0].content.parts[0].text is missing (or
    falsy), the extraction fails with the error "Invalid response structure
    from Gemini API." and JSON.parse has not been called.  This holds for the
    multimodal page and for the structuring call of the two-stage page. *)
Theorem missing_text_is_invalid_structure
    (key : string) (img text : Value) (mime : string) (w : World) (s : State)
    (front : list Response) (final : Response) (data : Value) :
  answers w s (map Responded front ++ [Responded final]) ->
  Forall (fun r => transient (status r)) front ->
  (length front < 4)%nat ->
  ok final = true ->
  json final = Some data ->
  nullish data = false ->
  truthy (text_of data) = false ->
  (Multimodal.extractMedicalDataWithGemini prompt key img mime w s =
     (Throw invalid_structure, after s (gemini_calls prompt key img mime w s front))
   /\ parses (gemini_calls prompt key img mime w s front) = [])
  /\ (front = [] ->
      TwoStage.extractMedicalDataWithGemini prompt_head prompt_tail key text w s =
        (Throw invalid_structure,
         after s [structuring_call prompt_head prompt_tail key text])).
Proof.
  intros Hans Htr Hlen Hok Hjson Hnull Htext.
  split; [split|].
  - rewrite (multimodal_reaches_decoding prompt key img mime w s front final
               Hans Htr Hlen Hok).
    rewrite (decoding_reads_text final data _ w _ Hjson Hnull), Htext.
    reflexivity.
  - unfold gemini_calls. rewrite parses_app, parses_retried. reflexivity.
  - intros Hfront. subst front.
    rewrite (two_stage_reaches_decoding prompt_head prompt_tail key text w s final
               (answers_head _ _ _ _ Hans) Hok).
    rewrite (decoding_reads_text final data _ w _ Hjson Hnull), Htext.
    reflexivity.
Qed.

(** C9.  On the two-stage page a response that is not 2xx, be it 4xx, 5xx or
    429, makes the call fail at once: the OCR call and the structuring call
    each throw after their single fetch, with nothing drawn, waited or
    fetched again. *)
Theorem two_stage_calls_are_not_retried
    (key : string) (img text : Value) (w : World) (s : State) (r : Response) :
  net w (fetch_count (trace s)) = Responded r ->
  ok r = false ->
  (exists e, TwoStage.detectTextWithVisionAPI key img w s =
               (Throw e, after s [vision_call key img]))
  /\ (exists e, TwoStage.extractMedicalDataWithGemini prompt_head prompt_tail key text w s =
                  (Throw e, after s [structuring_call prompt_head prompt_tail key text])).
Proof.
  intros Hnet Hok.
  split.
  - unfold TwoStage.detectTextWithVisionAPI. unfold bind at 1.
    rewrite run_fetch, Hnet, Hok. cbn [negb].
    unfold response_json, api_error, get, bind, ret, throw.
    destruct (json r) as [d|]; [destruct (nullish d)|]; eexists; reflexivity.
  - unfold TwoStage.extractMedicalDataWithGemini. unfold bind at 1.
    rewrite run_fetch, Hnet, Hok. cbn [negb].
    unfold response_json, api_error, get, bind, ret, throw.
    destruct (json r) as [d|]; [destruct (nullish d)|]; eexists; reflexivity.
Qed.

(** C8 (as amended).  When no file is selected, or the API key is empty, the
    click handler of either page only sets the error message: it returns
    without reading a file, calling the network or any other platform call.
    The guard looks at whether a file is selected, not at what it holds. *)
Theorem handleProcessClick_guards (w : World) (s : State) :
  file (ui s) = None \/ apiKey (ui s) = "" ->
  let message :=
    match file (ui s) with
    | None => "Please upload a file first."
    | Some _ => "Please enter your Google AI API key."
    end in
  Multimodal.handleProcessClick prompt w s =
    (Return tt, {| ui := with_error (ui s) message; trace := trace s |})
  /\ TwoStage.handleProcessClick prompt_head prompt_tail w s =
    (Return tt, {| ui := with_error (ui s) message; trace := trace s |}).
Proof.
  intros Hguard message. subst message.
  split;
    [unfold Multimodal.handleProcessClick | unfold TwoStage.handleProcessClick];
    unfold bind at 1; unfold gets; cbv beta iota;
    (destruct (file (ui s)) as [selected|]; [|reflexivity]);
    (destruct Hguard as [Hfile|Hkey]; [discriminate|]);
    rewrite Hkey; reflexivity.
Qed.

End OrchestratorClaims.

(** ** The claims at sample inputs *)

(** The scripted world answers the calls made from a fresh page with its
    script. *)
Ltac scripted_answers :=
  let k := fresh "k" in
  let o := fresh "o" in
  let H := fresh "H" in
  intros k o H;
  repeat first
    [ discriminate H
    | destruct k as [|k]; [cbn in H; inversion H; reflexivity | cbn in H] ].

Ltac all_transient := repeat constructor; unfold transient; cbn; lia.



Lemma fetchWithRetry_recovers_on_fourth_attempt_witness :
  let s := fresh "key" None in
  let final := answer 200 (Some (envelope (VStr "{}"))) in
  let w := scripted (map Responded [answer 503 None; answer 503 None;
                                    answer 503 None; final]) "" in
  exists calls,
    Multimodal.fetchWithRetry sample_url sample_options 4 w s = (Return final, after s calls)
    /\ fetch_count calls = 4%nat
    /\ (7000 <= total_delay calls)%Q.
Proof.
  intros s final w.
  destruct (@fetchWithRetry_recovers_on_fourth_attempt sample_engine sample_url
              sample_options w s (answer 503 None) (answer 503 None) (answer 503 None)
              final)
    as (Hrun & Hcount & Htotal).
  - scripted_answers.
  - reflexivity.
  - reflexivity.
  - reflexivity.
  - reflexivity.
  - intros k. cbn. lra.
  - eexists. split; [exact Hrun|]. split; [exact Hcount|].
    eapply Qle_trans; [|exact Htotal]. unfold Qle; cbn; lia.
Defined.

Lemma fetchWithRetry_permanent_fails_fast_witness :
  let s := fresh "key" None in
  let w := scripted [Responded (answer 403 (Some (error_body "API key not valid")))] "" in
  Multimodal.fetchWithRetry sample_url sample_options 4 w s
  = (Throw (Error "API error: API key not valid" None),
     after s [Fetched sample_url sample_options]).
Proof.
  intros s w.
  destruct (@fetchWithRetry_permanent_fails_fast sample_engine sample_url sample_options
              4 w s (answer 403 (Some (error_body "API key not valid"))))
    as (e & Hrun & Hmessage).
  - lia.
  - reflexivity.
  - reflexivity.
  - unfold transient; cbn; lia.
  - destruct (Hmessage (error_body "API key not valid") eq_refl eq_refl) as (Htext & _).
    rewrite (Htext "API key not valid" eq_refl) in Hrun by discriminate.
    exact Hrun.
Defined.

(** C4 as stated fails on a 404 whose body is not JSON (an HTML page, an
    empty body): no error message can be read from it, and the call does not
    end with "API error: Unknown error" but with the SyntaxError of
    response.json(). *)
Lemma error_body_that_is_not_json_escapes :
  let s := fresh "key" None in
  let w := scripted [Responded (answer 404 None)] "" in
  fst (Multimodal.fetchWithRetry sample_url sample_options 4 w s) = Throw SyntaxError
  /\ ~ (exists text,
          fst (Multimodal.fetchWithRetry sample_url sample_options 4 w s)
          = Throw (Error ("API error: " ++ text) None)).
Proof.
  split; [reflexivity|].
  intros (text & H). vm_compute in H. discriminate H.
Qed.

Lemma fetchWithRetry_network_failure_propagates_witness :
  let s := fresh "key" None in
  (let w := scripted [Responded (answer 503 None)] "" in
   exists calls,
     Multimodal.fetchWithRetry sample_url sample_options 4 w s
     = (Throw (NetworkError "Failed to fetch"), after s calls)
     /\ fetch_count calls = 2%nat /\ length (delays calls) = 1%nat)
  /\ (let w := scripted (map Responded [answer 503 None; answer 200 None]) "" in
      exists r, net w 0 = Responded r /\ transient (status r)).
Proof.
  intros s. split.
  - intros w.
    pose proof (proj1 (@fetchWithRetry_network_failure_propagates sample_engine
                         sample_url sample_options 4 w s)
                  [answer 503 None] "Failed to fetch") as Hrun.
    eexists. split; [apply Hrun|].
    + scripted_answers.
    + all_transient.
    + cbn; lia.
    + split; reflexivity.
  - intros w.
    apply (proj2 (@fetchWithRetry_network_failure_propagates sample_engine
                    sample_url sample_options 4 w s) 0%nat).
    vm_compute. lia.
Defined.

Lemma unparsable_text_is_logged_not_thrown_witness :
  let s := fresh "key" (Some small_file) in
  let w := scripted [Responded (answer 200 (Some (envelope (VStr garbage_text))))] "QUJD" in
  let thrown :=
    Error "Gemini API did not return valid JSON. See raw text for details." None in
  let logged :=
    Logged (ConsoleError "Failed to parse JSON from Gemini response:"
                         (ArgValue (VStr "<html>502 Bad Gateway</html>"))) in
  Multimodal.extractMedicalDataWithGemini "prompt" "key" (VStr "QUJD") "image/png" w s
  = (Throw thrown,
     after s [sample_gemini_call; Parsed "<html>502 Bad Gateway</html>"; logged])
  /\ fst (TwoStage.extractMedicalDataWithGemini "head" "tail" "key" (VStr "ocr") w s)
     = Throw thrown.
Proof.
  intros s w thrown logged.
  destruct (@unparsable_text_is_logged_not_thrown sample_engine "prompt" "head" "tail"
              "key" (VStr "QUJD") "ocr" "image/png" w s []
              (answer 200 (Some (envelope (VStr garbage_text))))
              (envelope (VStr garbage_text)) garbage_text)
    as (Hmulti & Htwo).
  - scripted_answers.
  - constructor.
  - cbn; lia.
  - reflexivity.
  - reflexivity.
  - reflexivity.
  - reflexivity.
  - discriminate.
  - reflexivity.
  - rewrite Hmulti, (Htwo eq_refl). split; reflexivity.
Defined.

(** C2 as stated fails: the text the backend sent does not occur in the
    error the extraction throws. *)
Lemma raw_text_is_not_in_the_error :
  let s := fresh "key" (Some small_file) in
  let w := scripted [Responded (answer 200 (Some (envelope (VStr garbage_text))))] "QUJD" in
  exists e,
    fst (Multimodal.extractMedicalDataWithGemini "prompt" "key" (VStr "QUJD")
           "image/png" w s) = Throw e
    /\ ~ carries (E := sample_engine) e garbage_text.
Proof.
  intros s w. exists invalid_json. split; [reflexivity|].
  intros (message & at_ & Hmessage & Hat).
  inversion Hmessage; subst message.
  revert Hat. apply (index_correct3 0 at_); [reflexivity | discriminate | lia].
Qed.

Lemma extracted_data_is_passed_through_witness :
  let s := fresh "key" (Some small_file) in
  let w := scripted [Responded (answer 200 (Some (envelope (VStr partial_text))))] "QUJD" in
  exists result s',
    Multimodal.extractMedicalDataWithGemini "prompt" "key" (VStr "QUJD") "image/png" w s
    = (Return result, s')
    /\ Multimodal.extractedData result = VObj [("diagnosis", VNull)].
Proof.
  intros s w.
  destruct (@extracted_data_is_passed_through sample_engine "prompt"
              "key" (VStr "QUJD") "image/png" w s []
              (answer 200 (Some (envelope (VStr partial_text))))
              (envelope (VStr partial_text)) partial_text partial_value)
    as (result & s' & Hrun & Hdata & _).
  - scripted_answers.
  - constructor.
  - cbn; lia.
  - reflexivity.
  - reflexivity.
  - reflexivity.
  - reflexivity.
  - discriminate.
  - reflexivity.
  - reflexivity.
  - exists result, s'. split; [exact Hrun | exact Hdata].
Defined.

(** C3 as stated fails: the backend answered with JSON whose structuredData
    has the diagnosis key only, and the result has no patientInfo key. *)
Lemma schema_key_missing_from_result :
  let s := fresh "key" (Some small_file) in
  let w := scripted [Responded (answer 200 (Some (envelope (VStr partial_text))))] "QUJD" in
  exists result,
    fst (Multimodal.extractMedicalDataWithGemini "prompt" "key" (VStr "QUJD")
           "image/png" w s) = Return result
    /\ In "patientInfo" schema_keys
    /\ ~ has_key (Multimodal.extractedData result) "patientInfo".
Proof.
  intros s w. eexists. split; [reflexivity|]. split; [left; reflexivity|].
  cbn. intros [H|[]]. discriminate H.
Qed.

Lemma missing_keys_give_undefined_witness :
  let s := fresh "key" (Some small_file) in
  let w := scripted [Responded (answer 200 (Some (envelope (VStr "[]"))))] "QUJD" in
  exists result s',
    Multimodal.extractMedicalDataWithGemini "prompt" "key" (VStr "QUJD") "image/png" w s
    = (Return result, s')
    /\ Multimodal.extractedText result = VUndefined
    /\ Multimodal.extractedData result = VUndefined.
Proof.
  intros s w.
  destruct (@missing_keys_give_undefined sample_engine "prompt"
              "key" (VStr "QUJD") "image/png" w s []
              (answer 200 (Some (envelope (VStr "[]"))))
              (envelope (VStr "[]")) "[]" (VArr []))
    as (result & s' & Hrun & Htext & Hdata).
  - scripted_answers.
  - constructor.
  - cbn; lia.
  - reflexivity.
  - reflexivity.
  - reflexivity.
  - reflexivity.
  - discriminate.
  - reflexivity.
  - reflexivity.
  - exists result, s'. split; [exact Hrun|].
    split; [apply Htext | apply Hdata]; intros H; exact H.
Defined.

(** C10 as stated fails: the text [null] is JSON and has neither key, yet
    the extraction does not succeed; reading a property of null throws
    inside the try block, and the catch turns that into the invalid-JSON
    error. *)
Lemma json_null_is_rejected :
  let s := fresh "key" (Some small_file) in
  let w := scripted [Responded (answer 200 (Some (envelope (VStr "null"))))] "QUJD" in
  JSON_parse (Engine := sample_engine) "null" = Some VNull
  /\ fst (Multimodal.extractMedicalDataWithGemini "prompt" "key" (VStr "QUJD")
            "image/png" w s) = Throw invalid_json
  /\ ~ (exists result,
          fst (Multimodal.extractMedicalDataWithGemini "prompt" "key" (VStr "QUJD")
                 "image/png" w s) = Return result).
Proof.
  intros s w. split; [reflexivity|]. split; [reflexivity|].
  intros (result & H). vm_compute in H. discriminate H.
Qed.

Lemma missing_text_is_invalid_structure_witness :
  let s := fresh "key" (Some small_file) in
  let final := answer 200 (Some (VObj [("candidates", VArr [])])) in
  let w := scripted [Responded final] "QUJD" in
  fst (Multimodal.extractMedicalDataWithGemini "prompt" "key" (VStr "QUJD") "image/png" w s)
  = Throw invalid_structure
  /\ parses (trace (snd (Multimodal.extractMedicalDataWithGemini "prompt" "key"
                           (VStr "QUJD") "image/png" w s))) = []
  /\ fst (TwoStage.extractMedicalDataWithGemini "head" "tail" "key" (VStr "ocr") w s)
     = Throw invalid_structure.
Proof.
  intros s final w.
  destruct (@missing_text_is_invalid_structure sample_engine "prompt" "head" "tail"
              "key" (VStr "QUJD") (VStr "ocr") "image/png" w s [] final
              (VObj [("candidates", VArr [])]))
    as ((Hmulti & Hparses) & Htwo).
  - scripted_answers.
  - constructor.
  - cbn; lia.
  - reflexivity.
  - reflexivity.
  - reflexivity.
  - reflexivity.
  - rewrite Hmulti, (Htwo eq_refl). repeat split; reflexivity.
Defined.

(** C6 as stated fails: a 200 response whose body is the JSON [null] has no
    text field, and the extraction ends with the TypeError of reading
    [candidates] of null, not with the invalid-structure error. *)
Lemma null_envelope_is_a_type_error :
  let s := fresh "key" (Some small_file) in
  let w := scripted [Responded (answer 200 (Some VNull))] "QUJD" in
  fst (Multimodal.extractMedicalDataWithGemini "prompt" "key" (VStr "QUJD") "image/png" w s)
  = Throw (TypeError "candidates")
  /\ fst (Multimodal.extractMedicalDataWithGemini "prompt" "key" (VStr "QUJD")
            "image/png" w s) <> Throw invalid_structure.
Proof.
  intros s w. split; [reflexivity|].
  intros H. vm_compute in H. discriminate H.
Qed.

Lemma two_stage_calls_are_not_retried_witness :
  let s := fresh "key" (Some small_file) in
  let w := scripted (map Responded [answer 503 None; answer 200 None]) "QUJD" in
  (exists e, TwoStage.detectTextWithVisionAPI "key" (VStr "QUJD") w s
             = (Throw e, after s [vision_call "key" (VStr "QUJD")]))
  /\ (exists e, TwoStage.extractMedicalDataWithGemini "head" "tail" "key" (VStr "ocr") w s
                = (Throw e, after s [structuring_call "head" "tail" "key" (VStr "ocr")])).
Proof.
  intros s w.
  apply (@two_stage_calls_are_not_retried sample_engine "head" "tail" "key"
           (VStr "QUJD") (VStr "ocr") w s (answer 503 None)); reflexivity.
Defined.

Lemma handleProcessClick_guards_witness :
  let s := fresh "" (Some small_file) in
  let w := scripted [Responded (answer 200 (Some (envelope (VStr "{}"))))] "QUJD" in
  Multimodal.handleProcessClick "prompt" w s
  = (Return tt, {| ui := with_error (ui s) "Please enter your Google AI API key.";
                   trace := [] |})
  /\ TwoStage.handleProcessClick "head" "tail" w s
  = (Return tt, {| ui := with_error (ui s) "Please enter your Google AI API key.";
                   trace := [] |}).
Proof.
  intros s w.
  apply (@handleProcessClick_guards sample_engine "prompt" "head" "tail" w s).
  right. reflexivity.
Defined.

(** C8 as stated fails on its second half: a selected file with no bytes is
    not a missing file, and the handler goes on to call the network. *)
Lemma empty_file_reaches_the_network :
  let s := fresh "key" (Some empty_file) in
  let w := scripted [Responded (answer 200 (Some (envelope (VStr "{}"))))] "" in
  file_content empty_file = []
  /\ fetch_count (trace (snd (Multimodal.handleProcessClick "prompt" w s))) = 1%nat
  /\ fetch_count (trace (snd (TwoStage.handleProcessClick "head" "tail" w s))) = 1%nat.
Proof.
  intros s w. repeat split; reflexivity.
Qed.

(** ** Every run of the resilient caller *)

Section EveryRun.

Context {E : Engine}.

Local Abbreviation Value := (JsValue number).

Variables (url : string) (options : Options).

Lemma answers_cons w s o rest events :
  net w (fetch_count (trace s)) = o ->
  fetch_count events = 1%nat ->
  answers w (after s events) rest ->
  answers w s (o :: rest).
Proof.
  intros Hhead Hone Hrest [|k] o' Hk.
  - cbn in Hk. inversion Hk; subst. now rewrite Nat.add_0_r.
  - cbn in Hk. rewrite <- (Hrest k o' Hk), fetch_count_after, Hone.
    f_equal. lia.
Qed.

Lemma answers_one w s o :
  net w (fetch_count (trace s)) = o -> answers w s [o].
Proof.
  intros H [|[|k]] o' Hk; cbn in Hk; try discriminate.
  inversion Hk; subst. now rewrite Nat.add_0_r.
Qed.

(** The shape of every run of the loop that starts with iterations to go:
    a run of transient responses, each retried, then one last fetch whose
    outcome decides. *)
Lemma retry_loop_shape retries w :
  forall left i s lastError,
    (i + Z.of_nat (S left) = retries)%Z ->
    exists front outcome,
      Forall (fun r => transient (status r)) front
      /\ (length front <= left)%nat
      /\ answers w s (map Responded front ++ [outcome])
      /\ snd (Multimodal.retry_loop (S left) url options i retries lastError w s)
         = after s (retried url options (rnd w) i (draw_count (trace s)) front
                    ++ [Fetched url options])
      /\ loop_verdict outcome
           (fst (Multimodal.retry_loop (S left) url options i retries lastError w s))
      /\ (forall r, outcome = Responded r -> transient (status r) ->
            length front = left).
Proof.
  induction left as [|left IH]; intros i s lastError Hi.
  - (* the last iteration *)
    exists [], (net w (fetch_count (trace s))).
    cbn [length map app retried]. split; [constructor|]. split; [lia|].
    split; [now apply answers_one|].
    cbn [Multimodal.retry_loop]. unfold bind.
    destruct (net w (fetch_count (trace s))) as [r|reason] eqn:Hnet.
    + destruct ((status r >=? 500) || (status r =? 429))%Z eqn:Ht.
      * apply transient_test in Ht.
        rewrite (iteration_last url options i retries w s r Hnet Ht) by lia.
        repeat split. left. split; [exact Ht | reflexivity].
      * assert (Hnt : ~ transient (status r)).
        { intros T. apply transient_test in T. congruence. }
        destruct (ok r) eqn:Hok.
        -- rewrite (iteration_ok url options i retries w s r Hnet Hok).
           repeat split. right; left. split; [exact Hok | reflexivity].
        -- destruct (attempt_permanent url options r Hnt Hok) as (e & He & Ha & _).
           rewrite (iteration_rethrows url options i retries w s e _ (Ha w s Hnet) He).
           repeat split. right; right. repeat split; try assumption.
           exists e. split; [exact He | reflexivity].
    + rewrite (iteration_rethrows url options i retries w s _ _
                 (attempt_rejected url options w s reason Hnet) eq_refl).
      repeat split.
  - (* an iteration with more to go *)
    destruct (net w (fetch_count (trace s))) as [r|reason] eqn:Hnet.
    + destruct ((status r >=? 500) || (status r =? 429))%Z eqn:Ht.
      * apply transient_test in Ht.
        set (s1 := after s (failed_attempt url options i (status r)
                              (rnd w (draw_count (trace s))))).
        destruct (IH (i + 1)%Z s1 (Some (status_error (status r))))
          as (front & outcome & Hfront & Hlen & Hans & Hsnd & Hverdict & Hlast);
          [lia|].
        exists (r :: front), outcome.
        split; [constructor; assumption|]. split; [cbn; lia|].
        split; [cbn [map app];
                apply (answers_cons w s (Responded r) _ _ Hnet
                         (fetch_count_failed_attempt url options i (status r) _) Hans)|].
        assert (Hrun : Multimodal.retry_loop (S (S left)) url options i retries lastError w s
                       = Multimodal.retry_loop (S left) url options (i + 1) retries
                           (Some (status_error (status r))) w s1).
        { change (Multimodal.retry_loop (S (S left)) url options i retries lastError w s)
            with (bind (Multimodal.iteration url options i retries)
                    (fun step =>
                       match step with
                       | Multimodal.Done response => ret (inl response)
                       | Multimodal.Break error => ret (inr (Some error))
                       | Multimodal.Next error =>
                           Multimodal.retry_loop (S left) url options (i + 1) retries
                             (Some error)
                       end) w s).
          unfold bind.
          rewrite (iteration_retry url options i retries w s r Hnet Ht) by lia.
          reflexivity. }
        rewrite Hrun. split; [|split; [exact Hverdict|]].
        -- rewrite Hsnd. unfold s1. rewrite after_after. cbn [retried].
           unfold after at 2; cbn [trace].
           rewrite draw_count_app, draw_count_failed_attempt.
           replace (draw_count (trace s) + 1)%nat with (S (draw_count (trace s))) by lia.
           now rewrite <- app_assoc.
        -- intros r' Ho Htr. cbn [length]. f_equal. exact (Hlast r' Ho Htr).
      * assert (Hnt : ~ transient (status r)).
        { intros T. apply transient_test in T. congruence. }
        exists [], (Responded r).
        cbn [length map app retried]. split; [constructor|]. split; [lia|].
        split; [now apply answers_one|].
        change (Multimodal.retry_loop (S (S left)) url options i retries lastError w s)
          with (bind (Multimodal.iteration url options i retries)
                  (fun step =>
                     match step with
                     | Multimodal.Done response => ret (inl response)
                     | Multimodal.Break error => ret (inr (Some error))
                     | Multimodal.Next error =>
                         Multimodal.retry_loop (S left) url options (i + 1) retries
                           (Some error)
                     end) w s).
        unfold bind.
        destruct (ok r) eqn:Hok.
        -- rewrite (iteration_ok url options i retries w s r Hnet Hok).
           split; [reflexivity|]. split.
           ++ right; left. split; [exact Hok | reflexivity].
           ++ intros r0 Hr0 Htr. inversion Hr0; subst. contradiction.
        -- destruct (attempt_permanent url options r Hnt Hok) as (e & He & Ha & _).
           rewrite (iteration_rethrows url options i retries w s e _ (Ha w s Hnet) He).
           split; [reflexivity|]. split.
           ++ right; right. repeat split; try assumption.
              exists e. split; [exact He | reflexivity].
           ++ intros r0 Hr0 Htr. inversion Hr0; subst. contradiction.
    + exists [], (Rejected reason).
      cbn [length map app retried]. split; [constructor|]. split; [lia|].
      split; [now apply answers_one|].
      change (Multimodal.retry_loop (S (S left)) url options i retries lastError w s)
        with (bind (Multimodal.iteration url options i retries)
                (fun step =>
                   match step with
                   | Multimodal.Done response => ret (inl response)
                   | Multimodal.Break error => ret (inr (Some error))
                   | Multimodal.Next error =>
                       Multimodal.retry_loop (S left) url options (i + 1) retries
                         (Some error)
                   end) w s).
      unfold bind.
      rewrite (iteration_rethrows url options i retries w s _ _
                 (attempt_rejected url options w s reason Hnet) eq_refl).
      repeat split. intros r Hr. discriminate Hr.
Qed.

End EveryRun.

Section CallerRuns.

Context {E : Engine}.

Local Abbreviation Value := (JsValue number).

Variables (url : string) (options : Options).

(** The shape of every run of the caller with a budget of at least one. *)
Lemma caller_shape retries w s :
  (1 <= retries)%Z ->
  exists front outcome,
    Forall (fun r => transient (status r)) front
    /\ (Z.of_nat (length front) < retries)%Z
    /\ answers w s (map Responded front ++ [outcome])
    /\ snd (Multimodal.fetchWithRetry url options retries w s)
       = after s (retried url options (rnd w) 0 (draw_count (trace s)) front
                  ++ [Fetched url options])
    /\ caller_verdict outcome (fst (Multimodal.fetchWithRetry url options retries w s))
    /\ (forall r, outcome = Responded r -> transient (status r) ->
          (Z.of_nat (length front) + 1 = retries)%Z).
Proof.
  intros Hret.
  destruct (Z.to_nat retries) as [|left] eqn:Hleft; [lia|].
  destruct (retry_loop_shape url options retries w left 0%Z s None)
    as (front & outcome & Hfront & Hlen & Hans & Hsnd & Hverdict & Hlast); [lia|].
  exists front, outcome.
  split; [exact Hfront|]. split; [lia|]. split; [exact Hans|].
  rewrite fetchWithRetry_state, Hleft. split; [exact Hsnd|]. split.
  - unfold Multimodal.fetchWithRetry, bind. rewrite Hleft.
    destruct (Multimodal.retry_loop (S left) url options 0 retries None w s)
      as [exit s'].
    cbn [fst] in Hverdict |- *.
    destruct outcome as [r|reason]; cbn [loop_verdict caller_verdict] in *.
    + destruct Hverdict as [[Ht Hexit]|[[Hok Hexit]|(Hnt & Hok & e & He & Hexit)]];
        subst exit.
      * left. split; [exact Ht|].
        unfold status_error; cbn [exn_status].
        rewrite (transient_nonzero _ Ht). reflexivity.
      * right; left. split; [exact Hok | reflexivity].
      * right; right. repeat split; try assumption. exists e. split; [exact He|reflexivity].
    + subst exit. reflexivity.
  - intros r Ho Ht. rewrite (Hlast r Ho Ht). lia.
Qed.

(** Without a budget the loop body never runs. *)
Lemma caller_without_budget retries w s :
  (retries <= 0)%Z ->
  Multimodal.fetchWithRetry url options retries w s = (Throw (TypeError "status"), s).
Proof.
  intros Hret. unfold Multimodal.fetchWithRetry, bind.
  replace (Z.to_nat retries) with 0%nat by lia. reflexivity.
Qed.



End CallerRuns.

(** ** Computations that only add to the trace *)

Section Frames.

Context {E : Engine}.

Local Abbreviation Value := (JsValue number).

Lemma frames_ret {A} (a : A) : frames (ret a).
Proof. intros w s. exists []. cbn. now rewrite after_nil. Qed.

Lemma frames_throw {A} (e : Exn) : frames (@throw E A e).
Proof. intros w s. exists []. cbn. now rewrite after_nil. Qed.

Lemma frames_emit (e : Event) : frames (emit e).
Proof. intros w s. exists [e]. reflexivity. Qed.

Lemma frames_bind {A B} (m : M A) (k : A -> M B) :
  frames m -> (forall a, frames (k a)) -> frames (bind m k).
Proof.
  intros Hm Hk w s. unfold bind.
  destruct (Hm w s) as [ev1 H1]. destruct (m w s) as [[a|e] s1]; cbn [snd] in *; subst s1.
  - destruct (Hk a w (after s ev1)) as [ev2 H2].
    exists (ev1 ++ ev2)%list. now rewrite H2, after_after.
  - exists ev1. reflexivity.
Qed.

Lemma frames_try_catch {A} (m : M A) (handler : Exn -> M A) :
  frames m -> (forall e, frames (handler e)) -> frames (try_catch m handler).
Proof.
  intros Hm Hh w s. unfold try_catch.
  destruct (Hm w s) as [ev1 H1]. destruct (m w s) as [[a|e] s1]; cbn [snd] in *; subst s1.
  - exists ev1. reflexivity.
  - destruct (Hh e w (after s ev1)) as [ev2 H2].
    exists (ev1 ++ ev2)%list. now rewrite H2, after_after.
Qed.

Lemma frames_fetch url options : frames (fetch url options).
Proof. intros w s. exists [Fetched url options]. now rewrite run_fetch. Qed.

Lemma frames_get (v : Value) (k : string) : frames (get v k).
Proof. unfold get. destruct (nullish v); [apply frames_throw | apply frames_ret]. Qed.

Lemma frames_get0 (v : Value) : frames (get0 v).
Proof. unfold get0. destruct (nullish v); [apply frames_throw | apply frames_ret]. Qed.

Lemma frames_response_json (r : Response) : frames (response_json r).
Proof. unfold response_json. destruct (json r); [apply frames_ret | apply frames_throw]. Qed.

Lemma frames_api_error prefix errorData : frames (api_error prefix errorData).
Proof.
  unfold api_error. apply frames_bind; [apply frames_get | intros; apply frames_ret].
Qed.

Lemma frames_candidate_text data : frames (candidate_text data).
Proof.
  unfold candidate_text. apply frames_bind; [apply frames_get | intros; apply frames_ret].
Qed.

Lemma frames_JSON_parse_value (v : Value) : frames (JSON_parse_value v).
Proof.
  unfold JSON_parse_value. apply frames_bind; [apply frames_emit|]. intros _.
  destruct (JSON_parse (ToString v)); [apply frames_ret | apply frames_throw].
Qed.

Lemma frames_fetchWithRetry url options :
  frames (Multimodal.fetchWithRetry url options Multimodal.default_retries).
Proof.
  intros w s.
  destruct (caller_shape url options Multimodal.default_retries w s)
    as (front & outcome & _ & _ & _ & Hsnd & _); [unfold Multimodal.default_retries; lia|].
  eexists. exact Hsnd.
Qed.

Create HintDb frames.

Hint Resolve frames_ret frames_throw frames_emit frames_fetch frames_get frames_get0
  frames_response_json frames_api_error frames_candidate_text frames_JSON_parse_value
  frames_fetchWithRetry : frames.

(** Break a computation into its calls. *)
Ltac frame :=
  repeat first
    [ solve [auto with frames]
    | apply frames_bind; [|intros ?]
    | apply frames_try_catch; [|intros ?]
    | match goal with
      | |- frames (if ?b then _ else _) => destruct b
      end ].

Lemma frames_multimodal_extract prompt key img mime :
  frames (Multimodal.extractMedicalDataWithGemini prompt key img mime).
Proof.
  unfold Multimodal.extractMedicalDataWithGemini, console_error. frame.
Qed.

Lemma frames_two_stage_extract head tail key text :
  frames (TwoStage.extractMedicalDataWithGemini head tail key text).
Proof.
  unfold TwoStage.extractMedicalDataWithGemini, console_error. frame.
Qed.

(** The OCR call fetches once and does nothing else, however it ends. *)
Lemma vision_trace key img w s :
  snd (TwoStage.detectTextWithVisionAPI key img w s) = after s [vision_call key img].
Proof.
  unfold TwoStage.detectTextWithVisionAPI. unfold bind at 1. rewrite run_fetch.
  destruct (net w (fetch_count (trace s))) as [r|reason]; [|reflexivity].
  unfold response_json, api_error, get, get0, bind, ret, throw.
  destruct (negb (ok r)); destruct (json r) as [d|]; try reflexivity;
    destruct (nullish d); try reflexivity.
  - destruct (nullish (own d "responses")); try reflexivity.
    destruct (negb (truthy (opt (first (own d "responses")) "textAnnotations"))
              || length_is_zero (opt (first (own d "responses")) "textAnnotations"));
      try reflexivity.
    destruct (nullish (opt (first (own d "responses")) "textAnnotations"));
      try reflexivity.
    destruct (nullish (first (opt (first (own d "responses")) "textAnnotations")));
      reflexivity.
Qed.

(** The structuring call of the two-stage page fetches exactly once. *)
Lemma structuring_trace head tail key text w s :
  exists rest,
    snd (TwoStage.extractMedicalDataWithGemini head tail key text w s)
    = after s (structuring_call head tail key text :: rest)
    /\ fetch_count rest = 0%nat.
Proof.
  unfold TwoStage.extractMedicalDataWithGemini. unfold bind at 1. rewrite run_fetch.
  destruct (net w (fetch_count (trace s))) as [r|reason];
    [|exists []; split; reflexivity].
  unfold response_json, api_error, candidate_text, get, bind, ret, throw.
  destruct (negb (ok r)); destruct (json r) as [d|];
    try (exists []; split; reflexivity);
    destruct (nullish d); try (exists []; split; reflexivity).
  destruct (negb (truthy (opt (opt0 (opt (opt (opt0 (own d "candidates")) "content")
                                         "parts")) "text")));
    [exists []; split; reflexivity|].
  unfold try_catch, JSON_parse_value, console_error, bind, emit, modify, ret, throw.
  destruct (JSON_parse _); eexists; (split; [cbn; unfold after; cbn [ui trace];
    rewrite <- ?app_assoc; reflexivity | reflexivity]).
Qed.

End Frames.

(** ** Every run of the click handlers *)

Section Clicks.

Context {E : Engine}.

Local Abbreviation Value := (JsValue number).

Variables (prompt prompt_head prompt_tail : string).

Lemma shown_message_nonempty e : shown_message e <> "".
Proof.
  unfold shown_message. destruct (exn_message e) as [[|c m]|]; discriminate.
Qed.

(** What the multimodal handler does once its guards have passed. *)
Lemma multimodal_click w s f :
  file (ui s) = Some f ->
  apiKey (ui s) <> "" ->
  exists events raw data message,
    Multimodal.handleProcessClick prompt w s =
      (Return tt,
       {| ui := settled s message raw data; trace := trace s ++ Read f :: events |})
    /\ match read_file w f with
       | None =>
           events = [failure_log ProgressEvent] /\ raw = VStr "" /\ data = VNull
           /\ message = shown_message ProgressEvent
       | Some data_url =>
           exists calls,
             snd (Multimodal.extractMedicalDataWithGemini prompt (apiKey (ui s))
                    (split_comma_1 data_url) (file_type f) w (processing s f))
             = after (processing s f) calls
             /\ match fst (Multimodal.extractMedicalDataWithGemini prompt (apiKey (ui s))
                             (split_comma_1 data_url) (file_type f) w (processing s f))
                with
                | Return result =>
                    events = calls /\ message = ""
                    /\ raw = Multimodal.extractedText result
                    /\ data = Multimodal.extractedData result
                | Throw e =>
                    events = (calls ++ [failure_log e])%list
                    /\ message = shown_message e /\ raw = VStr "" /\ data = VNull
                end
       end.
Proof.
  intros Hfile Hkey. apply String.eqb_neq in Hkey.
  destruct (Multimodal.handleProcessClick prompt w s) as [out s'] eqn:Hrun.
  unfold Multimodal.handleProcessClick in Hrun. unfold bind at 1 in Hrun.
  unfold gets in Hrun. rewrite Hfile, Hkey in Hrun.
  unfold try_finally, try_catch, report_failure, console_error, toBase64,
    setErrorMessage, setRawText, setStructuredData, setIsLoading, setStatusMessage,
    set_ui, bind, ask, emit, modify, ret, throw in Hrun.
  cbn -[Multimodal.extractMedicalDataWithGemini] in Hrun.
  fold (processing s f) in Hrun.
  destruct (read_file w f) as [data_url|].
  - destruct (frames_multimodal_extract prompt (apiKey (ui s)) (split_comma_1 data_url)
                (file_type f) w (processing s f)) as [calls Hcalls].
    destruct (Multimodal.extractMedicalDataWithGemini prompt (apiKey (ui s))
                (split_comma_1 data_url) (file_type f) w (processing s f))
      as [[result|e] s1]; cbn [fst snd] in *; subst s1;
      inversion Hrun; subst; clear Hrun.
    + exists calls, (Multimodal.extractedText result), (Multimodal.extractedData result), "".
      split; [|exists calls; repeat split].
      unfold settled, after, processing; cbn [ui trace].
      now rewrite <- app_assoc.
    + exists (calls ++ [failure_log e])%list, (VStr ""), VNull, (shown_message e).
      split; [|exists calls; repeat split].
      unfold settled, after, processing, shown_message, failure_log; cbn [ui trace].
      now rewrite <- !app_assoc.
  - inversion Hrun; subst; clear Hrun.
    exists [failure_log ProgressEvent], (VStr ""), VNull, (shown_message ProgressEvent).
    split; [|repeat split].
    unfold settled, shown_message, failure_log; cbn [ui trace].
    now rewrite <- app_assoc.
Qed.

(** What the two-stage handler does once its guards have passed. *)
Lemma two_stage_click w s f :
  file (ui s) = Some f ->
  apiKey (ui s) <> "" ->
  exists events raw data message,
    TwoStage.handleProcessClick prompt_head prompt_tail w s =
      (Return tt,
       {| ui := settled s message raw data; trace := trace s ++ Read f :: events |})
    /\ match read_file w f with
       | None =>
           events = [failure_log ProgressEvent] /\ raw = VStr "" /\ data = VNull
           /\ message = shown_message ProgressEvent
       | Some data_url =>
           let key := apiKey (ui s) in
           let img := split_comma_1 data_url in
           match fst (TwoStage.detectTextWithVisionAPI key img w (stage_one s f)) with
           | Throw e =>
               events = [vision_call key img; failure_log e]
               /\ raw = VStr "" /\ data = VNull /\ message = shown_message e
           | Return text =>
               exists rest,
                 fetch_count rest = 0%nat
                 /\ match fst (TwoStage.extractMedicalDataWithGemini prompt_head
                                 prompt_tail key text w (stage_two s f img text))
                    with
                    | Return extracted =>
                        events = vision_call key img
                                 :: structuring_call prompt_head prompt_tail key text
                                 :: rest
                        /\ raw = text /\ data = extracted /\ message = ""
                    | Throw e =>
                        events = (vision_call key img
                                  :: structuring_call prompt_head prompt_tail key text
                                  :: rest ++ [failure_log e])%list
                        /\ raw = text /\ data = VNull /\ message = shown_message e
                    end
           end
       end.
Proof.
  intros Hfile Hkey. apply String.eqb_neq in Hkey.
  destruct (TwoStage.handleProcessClick prompt_head prompt_tail w s) as [out s'] eqn:Hrun.
  unfold TwoStage.handleProcessClick in Hrun. unfold bind at 1 in Hrun.
  unfold gets in Hrun. rewrite Hfile, Hkey in Hrun.
  unfold try_finally, try_catch, report_failure, console_error, toBase64,
    setErrorMessage, setRawText, setStructuredData, setIsLoading, setStatusMessage,
    set_ui, bind, ask, emit, modify, ret, throw in Hrun.
  destruct (read_file w f) as [data_url|].
  - cbv zeta.
    with_strategy opaque [TwoStage.extractMedicalDataWithGemini
                          TwoStage.detectTextWithVisionAPI] cbn in Hrun.
    fold (stage_one s f) in Hrun.
    pose proof (vision_trace (apiKey (ui s)) (split_comma_1 data_url) w (stage_one s f))
      as Hvision.
    destruct (TwoStage.detectTextWithVisionAPI (apiKey (ui s)) (split_comma_1 data_url)
                w (stage_one s f)) as [[text|e] s1]; cbn [fst snd] in *; subst s1.
    + match type of Hrun with
      | context [TwoStage.extractMedicalDataWithGemini _ _ _ _ _ ?st] =>
          replace st with (stage_two s f (split_comma_1 data_url) text) in Hrun
            by (unfold stage_two, stage_one, after; cbn [ui trace];
                now rewrite <- app_assoc)
      end.
      destruct (structuring_trace prompt_head prompt_tail (apiKey (ui s)) text w
                  (stage_two s f (split_comma_1 data_url) text))
        as (rest & Hrest & Hcount).
      destruct (TwoStage.extractMedicalDataWithGemini prompt_head prompt_tail
                  (apiKey (ui s)) text w (stage_two s f (split_comma_1 data_url) text))
        as [[extracted|e] s2]; cbn [fst snd] in *; subst s2;
        inversion Hrun; subst; clear Hrun.
      * eexists _, text, extracted, "".
        split; [|exists rest; split; [exact Hcount | repeat split]].
        unfold settled, after, stage_two; cbn [ui trace].
        now rewrite <- !app_assoc.
      * eexists _, text, VNull, (shown_message e).
        split; [|exists rest; split; [exact Hcount | repeat split]].
        unfold settled, after, stage_two, shown_message, failure_log; cbn [ui trace].
        now rewrite <- !app_assoc.
    + inversion Hrun; subst; clear Hrun.
      eexists _, (VStr ""), VNull, (shown_message e).
      split; [|repeat split].
      unfold settled, after, stage_one, shown_message, failure_log; cbn [ui trace].
      now rewrite <- !app_assoc.
  - cbn in Hrun. inversion Hrun; subst; clear Hrun.
    exists [failure_log ProgressEvent], (VStr ""), VNull, (shown_message ProgressEvent).
    split; [|repeat split].
    unfold settled, shown_message, failure_log; cbn [ui trace].
    now rewrite <- app_assoc.
Qed.

End Clicks.

(** ** Further properties of the resilient caller *)

Section CallerProperties.

Context {E : Engine}.

Local Abbreviation Value := (JsValue number).

Variables (url : string) (options : Options).

(** X1.  Every run of [fetchWithRetry] with a budget of at least one attempt
    has the same shape, whatever the network does: some transient
    responses, each followed by a draw, a log line and a wait, then one last
    fetch after which nothing is drawn or waited.  The outcome of that last
    fetch decides: a rejection is rethrown; a 2xx response is returned; a
    transient status there means the budget is used up and gives the
    "temporarily unavailable" error; any other status gives an error without
    a status. *)
Theorem fetchWithRetry_run_shape (retries : Z) (w : World) (s : State) :
  (1 <= retries)%Z ->
  exists front outcome,
    Forall (fun r => transient (status r)) front
    /\ (Z.of_nat (length front) < retries)%Z
    /\ answers w s (map Responded front ++ [outcome])
    /\ snd (Multimodal.fetchWithRetry url options retries w s)
       = after s (retried url options (rnd w) 0 (draw_count (trace s)) front
                  ++ [Fetched url options])
    /\ caller_verdict outcome (fst (Multimodal.fetchWithRetry url options retries w s))
    /\ (forall r, outcome = Responded r -> transient (status r) ->
          (Z.of_nat (length front) + 1 = retries)%Z).
Proof. apply caller_shape. Qed.

(** X2.  Whatever the network does, [fetchWithRetry] makes at most [retries]
    fetch calls and waits at most [retries - 1] times. *)
Theorem fetchWithRetry_stays_within_budget (retries : Z) (w : World) (s : State) :
  let s' := snd (Multimodal.fetchWithRetry url options retries w s) in
  (fetch_count (trace s') <= fetch_count (trace s) + Z.to_nat retries)%nat
  /\ (length (delays (trace s'))
      <= length (delays (trace s)) + (Z.to_nat retries - 1))%nat.
Proof.
  intros s'. subst s'.
  destruct (Z_le_gt_dec retries 0) as [Hnone|Hsome].
  - rewrite (caller_without_budget url options retries w s Hnone). cbn [snd]. lia.
  - destruct (caller_shape url options retries w s)
      as (front & outcome & _ & Hlen & _ & Hsnd & _); [lia|].
    rewrite Hsnd. unfold after; cbn [trace].
    rewrite fetch_count_app, fetch_count_app, fetch_count_retried.
    rewrite !delays_app, delays_retried, !length_app, length_map, length_seq.
    cbn. lia.
Qed.

(** X3.  A response that [fetchWithRetry] returns is a 2xx response, and it is
    the answer to the last fetch that was made. *)
Theorem fetchWithRetry_returns_a_2xx_response
    (retries : Z) (w : World) (s : State) (r : Response) :
  fst (Multimodal.fetchWithRetry url options retries w s) = Return r ->
  let s' := snd (Multimodal.fetchWithRetry url options retries w s) in
  ok r = true
  /\ (fetch_count (trace s) < fetch_count (trace s'))%nat
  /\ net w (fetch_count (trace s') - 1) = Responded r.
Proof.
  intros Hreturn s'. subst s'.
  destruct (Z_le_gt_dec retries 0) as [Hnone|Hsome].
  - rewrite (caller_without_budget url options retries w s Hnone) in Hreturn.
    discriminate Hreturn.
  - destruct (caller_shape url options retries w s)
      as (front & outcome & _ & _ & Hans & Hsnd & Hverdict & _); [lia|].
    rewrite Hreturn in Hverdict. rewrite Hsnd.
    assert (Hcount : fetch_count (trace (after s (retried url options (rnd w) 0
                        (draw_count (trace s)) front ++ [Fetched url options])))
                     = (fetch_count (trace s) + length front + 1)%nat).
    { rewrite fetch_count_after, fetch_count_app, fetch_count_retried. cbn. lia. }
    rewrite Hcount.
    destruct outcome as [r0|reason]; cbn [caller_verdict] in Hverdict;
      [|discriminate Hverdict].
    destruct Hverdict as [[_ H]|[[Hok H]|(_ & _ & e & _ & H)]]; try discriminate H.
    inversion H; subst r0. split; [exact Hok|]. split; [lia|].
    replace (fetch_count (trace s) + length front + 1 - 1)%nat
      with (fetch_count (trace s) + length front)%nat by lia.
    apply Hans. rewrite nth_error_app2; rewrite length_map; [|lia].
    now rewrite Nat.sub_diag.
Qed.

(** X4.  An error that [fetchWithRetry] throws never has a status property:
    the status-tagged error of the retry loop does not leave the function. *)
Theorem fetchWithRetry_errors_carry_no_status
    (retries : Z) (w : World) (s : State) (e : Exn) :
  fst (Multimodal.fetchWithRetry url options retries w s) = Throw e ->
  exn_status e = None.
Proof.
  intros Hthrow.
  destruct (Z_le_gt_dec retries 0) as [Hnone|Hsome].
  - rewrite (caller_without_budget url options retries w s Hnone) in Hthrow.
    inversion Hthrow. reflexivity.
  - destruct (caller_shape url options retries w s)
      as (front & outcome & _ & _ & _ & _ & Hverdict & _); [lia|].
    rewrite Hthrow in Hverdict.
    destruct outcome as [r0|reason]; cbn [caller_verdict] in Hverdict.
    + destruct Hverdict as [[_ H]|[[_ H]|(_ & _ & e' & He' & H)]];
        inversion H; subst; reflexivity || assumption.
    + inversion Hverdict. reflexivity.
Qed.

(** X5.  With a budget of zero (or less) the loop body never runs: no fetch is
    made, and the function fails with the TypeError of reading the status of
    an undefined [lastError]. *)
Theorem fetchWithRetry_without_budget (retries : Z) (w : World) (s : State) :
  (retries <= 0)%Z ->
  Multimodal.fetchWithRetry url options retries w s = (Throw (TypeError "status"), s).
Proof.
  intros Hret. unfold Multimodal.fetchWithRetry, bind.
  assert (Hnone : Z.to_nat retries = 0%nat) by lia.
  rewrite Hnone. cbn [Multimodal.retry_loop]. reflexivity.
Qed.


End CallerProperties.

(** Splitting a data URL at its comma. *)
Lemma after_comma_append (header rest : string) :
  comma_free header = true -> after_comma (header ++ String "," rest) = Some rest.
Proof.
  induction header as [|c header IH]; cbn [comma_free append after_comma]; intros H.
  - reflexivity.
  - apply andb_true_iff in H. destruct H as [Hc Hrest].
    apply negb_true_iff in Hc. rewrite Hc. now apply IH.
Qed.

Lemma after_comma_none (s : string) : comma_free s = true -> after_comma s = None.
Proof.
  induction s as [|c s IH]; cbn [comma_free after_comma]; intros H; [reflexivity|].
  apply andb_true_iff in H. destruct H as [Hc Hrest].
  apply negb_true_iff in Hc. rewrite Hc. now apply IH.
Qed.

Lemma until_comma_whole (s : string) : comma_free s = true -> until_comma s = s.
Proof.
  induction s as [|c s IH]; cbn [comma_free until_comma]; intros H; [reflexivity|].
  apply andb_true_iff in H. destruct H as [Hc Hrest].
  apply negb_true_iff in Hc. rewrite Hc. f_equal. now apply IH.
Qed.

(** ** Further properties of the click handlers *)

Section ClickProperties.

Context {E : Engine}.

Local Abbreviation Value := (JsValue number).

Variables (prompt prompt_head prompt_tail : string).

Lemma after_inj (s : State) (a b : list Event) : after s a = after s b -> a = b.
Proof.
  unfold after. intros H. inversion H as [Htrace]. now apply app_inv_head in Htrace.
Qed.

Lemma answers_same_count w s s1 outcomes :
  fetch_count (trace s1) = fetch_count (trace s) ->
  answers w s outcomes -> answers w s1 outcomes.
Proof. intros Hc H k o Hk. rewrite Hc. now apply H. Qed.

Lemma fetch_count_processing s f :
  fetch_count (trace (processing s f)) = fetch_count (trace s).
Proof. unfold processing; cbn [trace]. rewrite fetch_count_app. cbn. lia. Qed.

Lemma fetch_count_read s f events :
  fetch_count (trace s ++ Read f :: events)
  = (fetch_count (trace s) + fetch_count events)%nat.
Proof. rewrite fetch_count_app. reflexivity. Qed.

(** X7.  Once its guards have passed, the click handler of the multimodal
    page never throws, whatever the file reader and the network do.  It
    leaves the key and the file as they were, switches the loading flag and
    the status line off, and so leaves the button enabled.  If an error
    message is on display afterwards, the results are cleared (empty text,
    null data) and hidden: an error never comes with stale results. *)
Theorem multimodal_click_settles (w : World) (s : State) (f : File) :
  file (ui s) = Some f ->
  apiKey (ui s) <> "" ->
  let s' := snd (Multimodal.handleProcessClick prompt w s) in
  fst (Multimodal.handleProcessClick prompt w s) = Return tt
  /\ apiKey (ui s') = apiKey (ui s)
  /\ file (ui s') = file (ui s)
  /\ isLoading (ui s') = false
  /\ statusMessage (ui s') = ""
  /\ button_disabled (ui s') = false
  /\ (shows_error (ui s') = true ->
      rawText (ui s') = VStr "" /\ structuredData (ui s') = VNull
      /\ shows_results (ui s') = false).
Proof.
  intros Hfile Hkey s'. subst s'.
  destruct (multimodal_click prompt w s f Hfile Hkey)
    as (events & raw & data & message & Hrun & Hcase).
  rewrite Hrun. cbn [fst snd ui settled apiKey file isLoading statusMessage].
  repeat (split; [reflexivity|]).
  split.
  - unfold button_disabled, settled; cbn [file apiKey isLoading]. rewrite Hfile.
    apply String.eqb_neq in Hkey. now rewrite Hkey.
  - unfold shows_error, shows_results, settled;
      cbn [errorMessage rawText structuredData isLoading].
    intros Hshown.
    destruct (read_file w f) as [data_url|].
    + destruct Hcase as (calls & _ & Hcase).
      destruct (fst (Multimodal.extractMedicalDataWithGemini prompt (apiKey (ui s))
                       (split_comma_1 data_url) (file_type f) w (processing s f))).
      * destruct Hcase as (_ & Hm & _). subst message. discriminate Hshown.
      * destruct Hcase as (_ & _ & Hraw & Hdata). subst. repeat split.
    + destruct Hcase as (_ & Hraw & Hdata & _). subst. repeat split.
Qed.

(** X8.  Once its guards have passed, the click handler of the two-stage page
    never throws either, and makes at most two fetch calls.  It leaves the
    key and the file as they were and the loading flag and status line off;
    if an error message is on display afterwards, the structured data is
    null. *)
Theorem two_stage_click_settles (w : World) (s : State) (f : File) :
  file (ui s) = Some f ->
  apiKey (ui s) <> "" ->
  let s' := snd (TwoStage.handleProcessClick prompt_head prompt_tail w s) in
  fst (TwoStage.handleProcessClick prompt_head prompt_tail w s) = Return tt
  /\ apiKey (ui s') = apiKey (ui s)
  /\ file (ui s') = file (ui s)
  /\ isLoading (ui s') = false
  /\ statusMessage (ui s') = ""
  /\ (fetch_count (trace s') <= fetch_count (trace s) + 2)%nat
  /\ (shows_error (ui s') = true -> structuredData (ui s') = VNull).
Proof.
  intros Hfile Hkey s'. subst s'.
  destruct (two_stage_click prompt_head prompt_tail w s f Hfile Hkey)
    as (events & raw & data & message & Hrun & Hcase).
  rewrite Hrun. cbn [fst snd ui trace settled apiKey file isLoading statusMessage].
  repeat (split; [reflexivity|]).
  rewrite fetch_count_read.
  unfold shows_error, settled; cbn [errorMessage structuredData].
  destruct (read_file w f) as [data_url|]; cbv zeta in Hcase.
  - destruct (fst (TwoStage.detectTextWithVisionAPI (apiKey (ui s))
                     (split_comma_1 data_url) w (stage_one s f))) as [text|e].
    + destruct Hcase as (rest & Hrest & Hcase).
      destruct (fst (TwoStage.extractMedicalDataWithGemini prompt_head prompt_tail
                       (apiKey (ui s)) text w
                       (stage_two s f (split_comma_1 data_url) text)))
        as [extracted|e]; destruct Hcase as (Hev & _ & Hdata & Hm); subst.
      * split; [|discriminate].
        change (fetch_count (vision_call (apiKey (ui s)) (split_comma_1 data_url)
                  :: structuring_call prompt_head prompt_tail (apiKey (ui s)) text
                  :: rest))
          with (S (S (fetch_count rest))). lia.
      * split; [|reflexivity].
        change (fetch_count (vision_call (apiKey (ui s)) (split_comma_1 data_url)
                  :: structuring_call prompt_head prompt_tail (apiKey (ui s)) text
                  :: rest ++ [failure_log e]))
          with (S (S (fetch_count (rest ++ [failure_log e])))).
        rewrite fetch_count_app, Hrest. cbn. lia.
    + destruct Hcase as (Hev & _ & Hdata & _). subst. split; [cbn; lia | reflexivity].
  - destruct Hcase as (Hev & _ & Hdata & _). subst. split; [cbn; lia | reflexivity].
Qed.

(** X9.  When the file reader fails (onerror), either page stops there: no
    fetch is made, the failure is logged, and the message on display is the
    generic "An unknown error occurred.", because the error event of the
    reader has no message. *)
Theorem unreadable_file_stops_the_click (w : World) (s : State) (f : File) :
  file (ui s) = Some f ->
  apiKey (ui s) <> "" ->
  read_file w f = None ->
  let stopped :=
    {| ui := settled s "An unknown error occurred." (VStr "") VNull;
       trace := (trace s ++ [Read f; failure_log ProgressEvent])%list |} in
  Multimodal.handleProcessClick prompt w s = (Return tt, stopped)
  /\ TwoStage.handleProcessClick prompt_head prompt_tail w s = (Return tt, stopped).
Proof.
  intros Hfile Hkey Hread stopped. subst stopped. split.
  - destruct (multimodal_click prompt w s f Hfile Hkey)
      as (events & raw & data & message & Hrun & Hcase).
    rewrite Hread in Hcase. destruct Hcase as (-> & -> & -> & ->). exact Hrun.
  - destruct (two_stage_click prompt_head prompt_tail w s f Hfile Hkey)
      as (events & raw & data & message & Hrun & Hcase).
    rewrite Hread in Hcase. destruct Hcase as (-> & -> & -> & ->). exact Hrun.
Qed.

(** X10.  A successful click on the multimodal page, end to end.  The reader
    loaded a data URL made of a header, a comma and a base64 payload; the
    2xx response (after any retried transient ones) holds a text that is
    JSON other than null.  Then every fetch of the click, one per response,
    is a POST to
    https://generativelanguage.googleapis.com/v1beta/models/gemini-1.5-pro-latest:generateContent?key=<the key>
    with the one header Content-Type: application/json and the body
    {contents: [{parts: [{text: <prompt>}, {inline_data: {mime_type:
    <file.type>, data: <payload>}}]}], generationConfig: {response_mime_type:
    "application/json"}}; and the handler ends with the error message empty,
    rawText the transcribedText and structuredData the structuredData of that
    JSON, the loading flag off, the status line empty, key and file as they
    were. *)
Theorem multimodal_click_displays_the_extraction
    (w : World) (s : State) (f : File) (header payload : string)
    (front : list Response) (final : Response) (data : Value) (raw : string)
    (parsed : Value) :
  file (ui s) = Some f ->
  apiKey (ui s) <> "" ->
  read_file w f = Some (header ++ "," ++ payload) ->
  comma_free header = true ->
  comma_free payload = true ->
  answers w s (map Responded front ++ [Responded final]) ->
  Forall (fun r => transient (status r)) front ->
  (length front < 4)%nat ->
  ok final = true ->
  json final = Some data ->
  nullish data = false ->
  text_of data = VStr raw ->
  raw <> "" ->
  JSON_parse raw = Some parsed ->
  nullish parsed = false ->
  exists calls,
    Multimodal.handleProcessClick prompt w s =
      (Return tt,
       {| ui := {| apiKey := apiKey (ui s); file := Some f; statusMessage := "";
                   errorMessage := "";
                   rawText := own parsed "transcribedText";
                   structuredData := own parsed "structuredData";
                   isLoading := false |};
          trace := (trace s ++ Read f :: calls ++ [Parsed raw])%list |})
    /\ calls = gemini_calls prompt (apiKey (ui s)) (VStr payload) (file_type f) w
                 (processing s f) front
    /\ fetch_count calls = S (length front)
    /\ (forall e, In e calls -> is_fetch e = true ->
          e = Fetched
                ("https://generativelanguage.googleapis.com/v1beta/models/gemini-1.5-pro-latest:generateContent?key="
                 ++ apiKey (ui s))
                {| method := "POST";
                   headers := [("Content-Type", "application/json")];
                   body :=
                     VObj [("contents",
                            VArr [VObj [("parts",
                                         VArr [VObj [("text", VStr prompt)];
                                               VObj [("inline_data",
                                                      VObj [("mime_type",
                                                             VStr (file_type f));
                                                            ("data", VStr payload)])]])]]);
                           ("generationConfig",
                            VObj [("response_mime_type",
                                   VStr "application/json")])] |}).
Proof.
  intros Hfile Hkey Hread Hheader Hpayload Hans Htr Hlen Hok Hjson Hnull Htext Hraw
         Hparse Hparsed.
  assert (Himg : split_comma_1 (header ++ "," ++ payload) = VStr payload).
  { unfold split_comma_1. change ("," ++ payload) with (String "," payload).
    rewrite (after_comma_append header payload Hheader).
    now rewrite (until_comma_whole payload Hpayload). }
  destruct (multimodal_click prompt w s f Hfile Hkey)
    as (events & text & extracted & message & Hrun & Hcase).
  rewrite Hread in Hcase. destruct Hcase as (calls & Hcalls & Hcase).
  rewrite Himg in Hcalls, Hcase.
  pose proof (multimodal_returns prompt (apiKey (ui s)) (VStr payload)
                (file_type f) w (processing s f) front final data raw parsed
                (answers_same_count w s _ _ (fetch_count_processing s f) Hans)
                Htr Hlen Hok Hjson Hnull Htext Hraw Hparse Hparsed) as Hextract.
  rewrite Hextract in Hcalls, Hcase. cbn [fst snd] in Hcalls, Hcase.
  apply after_inj in Hcalls. destruct Hcase as (-> & -> & -> & ->). subst calls.
  exists (gemini_calls prompt (apiKey (ui s)) (VStr payload) (file_type f) w
            (processing s f) front).
  split.
  { rewrite Hrun. unfold settled. rewrite Hfile. reflexivity. }
  split; [reflexivity|]. split.
  { unfold gemini_calls. rewrite fetch_count_app, fetch_count_retried. cbn. lia. }
  intros e Hin Hfetch. destruct e; try discriminate Hfetch.
  unfold gemini_calls in Hin. apply in_app_or in Hin. destruct Hin as [Hin|[Hin|[]]].
  - apply fetched_in_retried in Hin. destruct Hin as [-> ->]. reflexivity.
  - inversion Hin. reflexivity.
Qed.

(** X11.  On the two-stage page a failed OCR call ends the click: the
    structuring call is never made (one fetch in all), the failure is logged
    and shown, and neither text nor data is on display. *)
Theorem failed_ocr_skips_the_structuring_call
    (w : World) (s : State) (f : File) (data_url : string) (e : Exn) :
  file (ui s) = Some f ->
  apiKey (ui s) <> "" ->
  read_file w f = Some data_url ->
  fst (TwoStage.detectTextWithVisionAPI (apiKey (ui s)) (split_comma_1 data_url) w
         (stage_one s f)) = Throw e ->
  TwoStage.handleProcessClick prompt_head prompt_tail w s =
    (Return tt,
     {| ui := settled s (shown_message e) (VStr "") VNull;
        trace := (trace s ++ [Read f;
                              vision_call (apiKey (ui s)) (split_comma_1 data_url);
                              failure_log e])%list |}).
Proof.
  intros Hfile Hkey Hread Hfail.
  destruct (two_stage_click prompt_head prompt_tail w s f Hfile Hkey)
    as (events & raw & data & message & Hrun & Hcase).
  rewrite Hread in Hcase. cbv zeta in Hcase. rewrite Hfail in Hcase.
  destruct Hcase as (-> & -> & -> & ->). exact Hrun.
Qed.

(** X12.  On the two-stage page, when the OCR call has returned a string and
    the structuring call then fails, that string stays in rawText next to
    the error message, the structured data is null, the loading flag is off,
    and exactly two fetch calls were made; the results section is rendered
    unless the string is empty. *)
Theorem failed_structuring_keeps_the_ocr_text
    (w : World) (s : State) (f : File) (data_url ocr : string) (e : Exn) :
  file (ui s) = Some f ->
  apiKey (ui s) <> "" ->
  read_file w f = Some data_url ->
  fst (TwoStage.detectTextWithVisionAPI (apiKey (ui s)) (split_comma_1 data_url) w
         (stage_one s f)) = Return (VStr ocr) ->
  fst (TwoStage.extractMedicalDataWithGemini prompt_head prompt_tail (apiKey (ui s))
         (VStr ocr) w (stage_two s f (split_comma_1 data_url) (VStr ocr))) = Throw e ->
  let s' := snd (TwoStage.handleProcessClick prompt_head prompt_tail w s) in
  ui s' = {| apiKey := apiKey (ui s); file := Some f; statusMessage := "";
             errorMessage := shown_message e; rawText := VStr ocr;
             structuredData := VNull; isLoading := false |}
  /\ shows_error (ui s') = true
  /\ shows_results (ui s') = negb (ocr =? "")
  /\ fetch_count (trace s') = (fetch_count (trace s) + 2)%nat.
Proof.
  intros Hfile Hkey Hread Hocr Hfail s'. subst s'.
  set (text := VStr ocr) in *.
  destruct (two_stage_click prompt_head prompt_tail w s f Hfile Hkey)
    as (events & raw & data & message & Hrun & Hcase).
  rewrite Hread in Hcase. cbv zeta in Hcase. rewrite Hocr in Hcase.
  destruct Hcase as (rest & Hrest & Hcase). rewrite Hfail in Hcase.
  destruct Hcase as (-> & -> & -> & ->).
  rewrite Hrun. cbn [snd ui trace]. split; [|split; [|split]].
  - unfold settled. rewrite Hfile. reflexivity.
  - unfold shows_error, settled; cbn [errorMessage].
    apply negb_true_iff, String.eqb_neq, shown_message_nonempty.
  - unfold shows_results, settled, text; cbn [rawText structuredData isLoading truthy].
    now rewrite orb_false_r, andb_true_r.
  - rewrite fetch_count_read.
    change (fetch_count (vision_call (apiKey (ui s)) (split_comma_1 data_url)
              :: structuring_call prompt_head prompt_tail (apiKey (ui s)) text
              :: rest ++ [failure_log e]))
      with (S (S (fetch_count (rest ++ [failure_log e])))).
    rewrite fetch_count_app, Hrest. cbn. lia.
Qed.

End ClickProperties.

(** ** Further properties of the OCR call and of the file reading *)

Section StageOneProperties.

Context {E : Engine}.

Local Abbreviation Value := (JsValue number).

(** Decoding a 2xx OCR response whose envelope has a [responses] entry. *)
Lemma vision_reaches_annotations key img w s r data :
  net w (fetch_count (trace s)) = Responded r ->
  ok r = true ->
  json r = Some data ->
  nullish data = false ->
  nullish (own data "responses") = false ->
  TwoStage.detectTextWithVisionAPI key img w s =
  (if negb (truthy (annotations_of data)) || length_is_zero (annotations_of data)
   then throw no_text_found
   else annotation <- get0 (annotations_of data) ;; get annotation "description")
    w (after s [vision_call key img]).
Proof.
  intros Hnet Hok Hjson Hnull Hresponses.
  unfold TwoStage.detectTextWithVisionAPI. unfold bind at 1.
  rewrite run_fetch, Hnet, Hok. cbn [negb].
  unfold response_json, get, get0, bind at 1 2 3, ret.
  rewrite Hjson, Hnull, Hresponses. reflexivity.
Qed.

(** X13.  A 2xx OCR response whose first entry has no annotations (the
    textAnnotations property is missing or falsy, or it is an empty array)
    makes the OCR call fail with "No text found in the document by Vision
    API.", after its one fetch. *)
Theorem vision_without_annotations_finds_no_text
    (key : string) (img : Value) (w : World) (s : State) (r : Response) (data : Value) :
  net w (fetch_count (trace s)) = Responded r ->
  ok r = true ->
  json r = Some data ->
  nullish data = false ->
  nullish (own data "responses") = false ->
  truthy (annotations_of data) = false \/ annotations_of data = VArr [] ->
  TwoStage.detectTextWithVisionAPI key img w s =
    (Throw no_text_found, after s [vision_call key img]).
Proof.
  intros Hnet Hok Hjson Hnull Hresponses Hnone.
  rewrite (vision_reaches_annotations key img w s r data Hnet Hok Hjson Hnull Hresponses).
  destruct Hnone as [Hfalsy|Hempty].
  - rewrite Hfalsy. reflexivity.
  - rewrite Hempty. reflexivity.
Qed.

(** X14.  A 2xx OCR response with annotations: the OCR call returns the
    description of the first annotation and looks at no other; when that
    annotation has no description the text returned is undefined. *)
Theorem vision_returns_the_first_description
    (key : string) (img : Value) (w : World) (s : State) (r : Response) (data : Value)
    (annotation : Value) (others : list Value) :
  net w (fetch_count (trace s)) = Responded r ->
  ok r = true ->
  json r = Some data ->
  nullish data = false ->
  nullish (own data "responses") = false ->
  annotations_of data = VArr (annotation :: others) ->
  nullish annotation = false ->
  TwoStage.detectTextWithVisionAPI key img w s =
    (Return (own annotation "description"), after s [vision_call key img])
  /\ (~ has_key annotation "description" -> own annotation "description" = VUndefined).
Proof.
  intros Hnet Hok Hjson Hnull Hresponses Hann Hfirst.
  split; [|apply own_missing].
  rewrite (vision_reaches_annotations key img w s r data Hnet Hok Hjson Hnull Hresponses).
  rewrite Hann. cbn [truthy negb length_is_zero orb].
  unfold get0, get, bind, ret. cbn [nullish first]. now rewrite Hfirst.
Qed.

(** X15.  The OCR call reads [data.responses[0]] without the optional chaining
    of the generation calls: a 2xx response whose JSON envelope has no
    [responses] entry makes it fail with a TypeError, not with the "No text
    found" error. *)
Theorem vision_envelope_without_responses_is_a_type_error
    (key : string) (img : Value) (w : World) (s : State) (r : Response) (data : Value) :
  net w (fetch_count (trace s)) = Responded r ->
  ok r = true ->
  json r = Some data ->
  nullish data = false ->
  nullish (own data "responses") = true ->
  TwoStage.detectTextWithVisionAPI key img w s =
    (Throw (TypeError "0"), after s [vision_call key img]).
Proof.
  intros Hnet Hok Hjson Hnull Hresponses.
  unfold TwoStage.detectTextWithVisionAPI. unfold bind at 1.
  rewrite run_fetch, Hnet, Hok. cbn [negb].
  unfold response_json, get, get0, bind, ret, throw.
  now rewrite Hjson, Hnull, Hresponses.
Qed.

(** X16.  [toBase64] gives back the payload of the data URL the reader loaded:
    for a URL made of a header without comma, a comma and a payload without
    comma (base64 has none) the result is the payload, whole; for a URL
    without any comma it is undefined.  One read of the file is the only
    call made. *)
Theorem toBase64_gives_the_payload
    (w : World) (s : State) (f : File) (header payload : string) :
  comma_free header = true ->
  comma_free payload = true ->
  (read_file w f = Some (header ++ "," ++ payload) ->
   toBase64 f w s = (Return (VStr payload), after s [Read f]))
  /\ (read_file w f = Some header ->
      toBase64 f w s = (Return VUndefined, after s [Read f])).
Proof.
  intros Hheader Hpayload.
  unfold toBase64, bind, ask, emit, modify, ret. cbn [fst snd].
  split; intros Hread; rewrite Hread; unfold split_comma_1.
  - change ("," ++ payload) with (String "," payload).
    rewrite (after_comma_append header payload Hheader).
    now rewrite (until_comma_whole payload Hpayload).
  - now rewrite (after_comma_none header Hheader).
Qed.

End StageOneProperties.

(** ** The further properties at sample inputs *)

Lemma fetchWithRetry_run_shape_witness :
  let s := fresh "key" None in
  let w := scripted (map Responded [answer 503 None; answer 200 None]) "" in
  exists front outcome,
    snd (Multimodal.fetchWithRetry sample_url sample_options 4 w s)
    = after s (retried sample_url sample_options (rnd w) 0 0 front
               ++ [Fetched sample_url sample_options])
    /\ caller_verdict outcome (fst (Multimodal.fetchWithRetry sample_url sample_options 4 w s)).
Proof.
  intros s w.
  destruct (@fetchWithRetry_run_shape sample_engine sample_url sample_options 4 w s)
    as (front & outcome & _ & _ & _ & Hsnd & Hverdict & _); [lia|].
  exists front, outcome. split; [exact Hsnd | exact Hverdict].
Defined.

Lemma fetchWithRetry_returns_a_2xx_response_witness :
  let s := fresh "key" None in
  let w := scripted (map Responded [answer 503 None; answer 204 None]) "" in
  ok (answer 204 None) = true /\ net w 1 = Responded (answer 204 None).
Proof.
  intros s w.
  destruct (@fetchWithRetry_returns_a_2xx_response sample_engine sample_url
              sample_options 4 w s (answer 204 None) eq_refl)
    as (Hok & _ & Hlast).
  split; [exact Hok | exact Hlast].
Defined.

Lemma fetchWithRetry_errors_carry_no_status_witness :
  exn_status (unavailable 503) = None.
Proof.
  exact (@fetchWithRetry_errors_carry_no_status sample_engine sample_url sample_options
           2 (scripted (map Responded [answer 500 None; answer 503 None]) "")
           (fresh "key" None) (unavailable 503) eq_refl).
Defined.

Lemma fetchWithRetry_without_budget_witness :
  Multimodal.fetchWithRetry sample_url sample_options 0
    (scripted [Responded (answer 200 None)] "") (fresh "key" None)
  = (Throw (TypeError "status"), fresh "key" None).
Proof.
  apply (@fetchWithRetry_without_budget sample_engine). lia.
Defined.


Lemma multimodal_click_settles_witness :
  let s := fresh "key" (Some small_file) in
  let w := scripted [Responded (answer 500 None)] "QUJD" in
  fst (Multimodal.handleProcessClick "prompt" w s) = Return tt
  /\ button_disabled (ui (snd (Multimodal.handleProcessClick "prompt" w s))) = false.
Proof.
  intros s w.
  destruct (@multimodal_click_settles sample_engine "prompt" w s small_file)
    as (Hreturn & _ & _ & _ & _ & Hbutton & _).
  - reflexivity.
  - discriminate.
  - split; [exact Hreturn | exact Hbutton].
Defined.

Lemma two_stage_click_settles_witness :
  let s := fresh "key" (Some small_file) in
  let w := scripted (map Responded [answer 200 (Some (ocr_body "Hb 13.5"));
                                    answer 200 (Some (envelope (VStr "{}")))]) "QUJD" in
  fst (TwoStage.handleProcessClick "head" "tail" w s) = Return tt
  /\ (fetch_count (trace (snd (TwoStage.handleProcessClick "head" "tail" w s))) <= 2)%nat.
Proof.
  intros s w.
  destruct (@two_stage_click_settles sample_engine "head" "tail" w s small_file)
    as (Hreturn & _ & _ & _ & _ & Hcount & _).
  - reflexivity.
  - discriminate.
  - split; [exact Hreturn | exact Hcount].
Defined.

Lemma unreadable_file_stops_the_click_witness :
  let s := fresh "key" (Some small_file) in
  let w := reading [Responded (answer 200 (Some (envelope (VStr "{}"))))] None in
  fetch_count (trace (snd (Multimodal.handleProcessClick "prompt" w s))) = 0%nat
  /\ fetch_count (trace (snd (TwoStage.handleProcessClick "head" "tail" w s))) = 0%nat.
Proof.
  intros s w.
  destruct (@unreadable_file_stops_the_click sample_engine "prompt" "head" "tail"
              w s small_file) as (Hmulti & Htwo).
  - reflexivity.
  - discriminate.
  - reflexivity.
  - rewrite Hmulti, Htwo. split; reflexivity.
Defined.

Lemma multimodal_click_displays_the_extraction_witness :
  let s := fresh "key" (Some small_file) in
  let w := scripted [Responded (answer 200 (Some (envelope (VStr partial_text))))] "QUJD" in
  Multimodal.handleProcessClick "prompt" w s
  = (Return tt,
     {| ui := {| apiKey := "key"; file := Some small_file; statusMessage := "";
                 errorMessage := ""; rawText := VStr "Rx";
                 structuredData := VObj [("diagnosis", VNull)];
                 isLoading := false |};
        trace := [Read small_file; sample_gemini_call; Parsed partial_text] |}).
Proof.
  intros s w.
  destruct (@multimodal_click_displays_the_extraction sample_engine "prompt" w s
              small_file "data:image/png;base64" "QUJD" []
              (answer 200 (Some (envelope (VStr partial_text))))
              (envelope (VStr partial_text)) partial_text partial_value)
    as (calls & Hrun & Hcalls & _).
  - reflexivity.
  - discriminate.
  - reflexivity.
  - reflexivity.
  - reflexivity.
  - scripted_answers.
  - constructor.
  - cbn; lia.
  - reflexivity.
  - reflexivity.
  - reflexivity.
  - reflexivity.
  - discriminate.
  - reflexivity.
  - reflexivity.
  - rewrite Hrun, Hcalls. reflexivity.
Defined.

Lemma failed_ocr_skips_the_structuring_call_witness :
  let s := fresh "key" (Some small_file) in
  let w := scripted (map Responded [answer 503 None;
                                    answer 200 (Some (envelope (VStr "{}")))]) "QUJD" in
  fetch_count (trace (snd (TwoStage.handleProcessClick "head" "tail" w s))) = 1%nat
  /\ errorMessage (ui (snd (TwoStage.handleProcessClick "head" "tail" w s)))
     = "Unexpected token".
Proof.
  intros s w.
  rewrite (@failed_ocr_skips_the_structuring_call sample_engine "head" "tail" w s
             small_file "data:image/png;base64,QUJD" SyntaxError).
  - split; reflexivity.
  - reflexivity.
  - discriminate.
  - reflexivity.
  - reflexivity.
Defined.

Lemma failed_structuring_keeps_the_ocr_text_witness :
  let s := fresh "key" (Some small_file) in
  let w := scripted (map Responded [answer 200 (Some (ocr_body "Hb 13.5"));
                                    answer 400 (Some (error_body "Bad request"))]) "QUJD" in
  let s' := snd (TwoStage.handleProcessClick "head" "tail" w s) in
  ui s' = {| apiKey := "key"; file := Some small_file; statusMessage := "";
             errorMessage := "Gemini API error: Bad request";
             rawText := VStr "Hb 13.5"; structuredData := VNull;
             isLoading := false |}
  /\ shows_error (ui s') = true
  /\ shows_results (ui s') = true
  /\ fetch_count (trace s') = 2%nat.
Proof.
  intros s w.
  apply (@failed_structuring_keeps_the_ocr_text sample_engine "head" "tail" w s
           small_file "data:image/png;base64,QUJD" "Hb 13.5"
           (Error "Gemini API error: Bad request" None)).
  - reflexivity.
  - discriminate.
  - reflexivity.
  - reflexivity.
  - reflexivity.
Defined.

Lemma vision_without_annotations_finds_no_text_witness :
  let s := fresh "key" (Some small_file) in
  let body := VObj [("responses", VArr [VObj []])] in
  let w := scripted [Responded (answer 200 (Some body))] "QUJD" in
  TwoStage.detectTextWithVisionAPI "key" (VStr "QUJD") w s
  = (Throw no_text_found, after s [vision_call "key" (VStr "QUJD")]).
Proof.
  intros s body w.
  apply (@vision_without_annotations_finds_no_text sample_engine "key" (VStr "QUJD")
           w s (answer 200 (Some body)) body); try reflexivity.
  left. reflexivity.
Defined.

Lemma vision_returns_the_first_description_witness :
  let s := fresh "key" (Some small_file) in
  let w := scripted [Responded (answer 200 (Some (ocr_body "Hb 13.5")))] "QUJD" in
  TwoStage.detectTextWithVisionAPI "key" (VStr "QUJD") w s
  = (Return (VStr "Hb 13.5"), after s [vision_call "key" (VStr "QUJD")]).
Proof.
  intros s w.
  apply (@vision_returns_the_first_description sample_engine "key" (VStr "QUJD")
           w s (answer 200 (Some (ocr_body "Hb 13.5"))) (ocr_body "Hb 13.5")
           (VObj [("description", VStr "Hb 13.5")]) []); reflexivity.
Defined.

Lemma vision_envelope_without_responses_is_a_type_error_witness :
  let s := fresh "key" (Some small_file) in
  let w := scripted [Responded (answer 200 (Some (VObj [])))] "QUJD" in
  TwoStage.detectTextWithVisionAPI "key" (VStr "QUJD") w s
  = (Throw (TypeError "0"), after s [vision_call "key" (VStr "QUJD")]).
Proof.
  intros s w.
  apply (@vision_envelope_without_responses_is_a_type_error sample_engine "key"
           (VStr "QUJD") w s (answer 200 (Some (VObj []))) (VObj [])); reflexivity.
Defined.

Lemma toBase64_gives_the_payload_witness :
  let s := fresh "key" (Some small_file) in
  toBase64 small_file (scripted [] "QUJD") s
  = (Return (VStr "QUJD"), after s [Read small_file])
  /\ toBase64 small_file (reading [] (Some "data:")) s
     = (Return VUndefined, after s [Read small_file]).
Proof.
  intros s. split.
  - apply (proj1 (@toBase64_gives_the_payload sample_engine (scripted [] "QUJD") s
                    small_file "data:image/png;base64" "QUJD" eq_refl eq_refl)).
    reflexivity.
  - apply (proj2 (@toBase64_gives_the_payload sample_engine
                    (reading [] (Some "data:")) s small_file "data:" "QUJD"
                    eq_refl eq_refl)).
    reflexivity.
Defined.
